(** * CTkSafeEditBox: the edit-toggle field and its hover-color utility

    A shallow embedding of [src/CTkSafeEditBox.py].

    - Python [str] values are [string]s; a character is a code point below
      256, so [String.length] is Python's [len].
    - Python [int] values are [Z]; the [float] arithmetic of
      [_get_hover_color] is IEEE 754 binary64, computed with [SpecFloat].
    - The widget is a record of the attributes the class assigns; methods
      run in a small state-and-exception monad over that record, because an
      exception raised half way through [toggle_edit_mode] leaves the
      assignments made before it in place.
    - The host toolkit is a parameter: the theme's button color table, the
      toolkit's name-to-RGB resolution ([winfo_rgb]) and the user's
      callbacks are [Section] variables. *)

From Stdlib Require Import ZArith String Ascii List Bool Lia.
From Stdlib Require Import Floats.SpecFloat.
From Stdlib Require Import Numbers.HexadecimalN HexadecimalString.
From stdpp Require Import base gmap strings.

Open Scope string_scope.
Open Scope Z_scope.

(** ** The Python runtime the source relies on *)

Module Py.

(** *** Exceptions and results *)

Inductive exn : Type :=
| ValueError (msg : string)
| TypeError
| OverflowError.

Inductive result (A : Type) : Type :=
| Ok (a : A)
| Raise (e : exn).
Arguments Ok {A} a.
Arguments Raise {A} e.

#[global] Instance exn_eq_dec : EqDecision exn.
Proof. solve_decision. Defined.

#[global] Instance result_eq_dec {A} `{EqDecision A} : EqDecision (result A).
Proof. solve_decision. Defined.

Definition is_ValueError {A} (r : result A) : bool :=
  match r with
  | Raise (ValueError _) => true
  | _ => false
  end.

Definition returns {A} (r : result A) : bool :=
  match r with
  | Ok _ => true
  | Raise _ => false
  end.

(** *** Strings: [s.startswith("#")], [s[i:j]] and [s[:m]] *)

Definition startswith_hash (s : string) : bool :=
  match s with
  | String c _ => Ascii.eqb c "#"
  | EmptyString => false
  end.

(** [s[i:j]] for constant bounds [0 <= i <= j]; Python clamps a slice at
    the end of the string, and so does [substring]. *)
Definition slice (i j : nat) (s : string) : string :=
  substring i (j - i) s.

(** [s[:m]] for an integer [m] of either sign: a negative bound counts
    from the end. *)
Definition prefix (m : Z) (s : string) : string :=
  if 0 <=? m then substring 0 (Z.to_nat m) s
  else substring 0 (Z.to_nat (Z.of_nat (String.length s) + m)) s.

(** *** [int(s, 16)]

    The builtin is the runtime's, not the repository's; this is its
    documented behaviour for a [str] argument and base 16: the text may be
    surrounded by whitespace, carry one sign, carry a [0x] prefix, and
    have single underscores between digits. The steps are the ones the
    interpreter takes: non-ASCII whitespace becomes a blank and any other
    character from 127 on ends the text with a [?]; then blanks, sign,
    prefix, digits, blanks, end of text. *)

Definition code (c : ascii) : N := N_of_ascii c.

(** Whitespace of the ASCII scanner: tab, LF, VT, FF, CR and blank. *)
Definition isspace (c : ascii) : bool :=
  let n := code c in
  (((9 <=? n) && (n <=? 13)) || (n =? 32))%N.

(** Unicode whitespace among the code points 127..255: NEL and NBSP. *)
Definition isspace_high (c : ascii) : bool :=
  let n := code c in
  ((n =? 133) || (n =? 160))%N.

Fixpoint to_ascii_text (s : list ascii) : list ascii :=
  match s with
  | nil => nil
  | c :: rest =>
      if (code c <? 127)%N then c :: to_ascii_text rest
      else if isspace_high c then " "%char :: to_ascii_text rest
      else "?"%char :: nil
  end.

(** The value of a base-16 digit. *)
Definition digit_value (c : ascii) : option Z :=
  let n := code c in
  if ((48 <=? n) && (n <=? 57))%N then Some (Z.of_N n - 48)
  else if ((97 <=? n) && (n <=? 102))%N then Some (Z.of_N n - 87)
  else if ((65 <=? n) && (n <=? 70))%N then Some (Z.of_N n - 55)
  else None.

Fixpoint skip_spaces (s : list ascii) : list ascii :=
  match s with
  | c :: rest => if isspace c then skip_spaces rest else s
  | nil => nil
  end.

(** The digit scan: [acc] is the value so far, [ndigits] the number of
    digits read, [prev_us] whether the previous character was an
    underscore. It stops at the first character that is neither a digit
    nor an underscore; two underscores in a row or an underscore at the
    end of the digits are refused. *)
Fixpoint scan_digits (s : list ascii) (acc : Z) (ndigits : nat) (prev_us : bool)
  : option (Z * nat * list ascii) :=
  match s with
  | c :: rest =>
      if Ascii.eqb c "_" then
        if prev_us then None else scan_digits rest acc ndigits true
      else
        match digit_value c with
        | Some d => scan_digits rest (16 * acc + d) (S ndigits) false
        | None => if prev_us then None else Some (acc, ndigits, s)
        end
  | nil => if prev_us then None else Some (acc, ndigits, nil)
  end.

Definition strip_sign (s : list ascii) : bool * list ascii :=
  match s with
  | c :: rest =>
      if Ascii.eqb c "+" then (false, rest)
      else if Ascii.eqb c "-" then (true, rest)
      else (false, s)
  | nil => (false, nil)
  end.

Definition strip_prefix (s : list ascii) : list ascii :=
  match s with
  | z :: x :: rest =>
      if Ascii.eqb z "0" && (Ascii.eqb x "x" || Ascii.eqb x "X") then
        match rest with
        | u :: rest' => if Ascii.eqb u "_" then rest' else rest
        | nil => rest
        end
      else s
  | _ => s
  end.

(** [int(s, 16)]: [None] stands for the [ValueError] it raises. *)
Definition int16 (s : string) : option Z :=
  let s0 := skip_spaces (to_ascii_text (list_ascii_of_string s)) in
  let '(neg, s1) := strip_sign s0 in
  let s2 := strip_prefix s1 in
  match s2 with
  | c :: _ => if Ascii.eqb c "_" then None else
      match scan_digits s2 0 0%nat false with
      | Some (v, S _, rest) =>
          match skip_spaces rest with
          | nil => Some (if neg then - v else v)
          | _ :: _ => None
          end
      | _ => None
      end
  | nil => None
  end.

(** *** Floats: binary64 *)

Definition prec : Z := 53.
Definition emax : Z := 1024.

(** [float(z)] for an integer operand of [*] or [/]. *)
Definition float_of_int (z : Z) : spec_float :=
  binary_normalize prec emax z 0 false.

Definition fmul (x y : spec_float) : spec_float := SFmul prec emax x y.
Definition fdiv (x y : spec_float) : spec_float := SFdiv prec emax x y.

(** [int(x)] truncates towards zero; an infinity raises [OverflowError]
    and a NaN [ValueError]. *)
Definition int_of_float (x : spec_float) : result Z :=
  match x with
  | S754_zero _ => Ok 0
  | S754_finite s m e =>
      let a := if 0 <=? e then Z.pos m * 2 ^ e else Z.pos m / 2 ^ (- e) in
      Ok (if s then - a else a)
  | S754_infinity _ => Raise OverflowError
  | S754_nan => Raise (ValueError "cannot convert float NaN to integer")
  end.

(** *** ["{:02x}".format(n)]: lowercase hexadecimal, at least two
    characters wide, padded with zeros on the left. *)

Definition hex (n : N) : string := NilZero.string_of_uint (N.to_hex_uint n).

Definition format_02x (z : Z) : string :=
  let body := hex (Z.abs_N z) in
  if z <? 0 then "-" ++ body
  else if (String.length body <? 2)%nat then "0" ++ body
  else body.

End Py.

Import Py.

(** The result monad of a computation that returns or raises. *)
#[global] Instance result_ret : MRet result := @Ok.
#[global] Instance result_bind : MBind result := fun A B k r =>
  match r with
  | Ok a => k a
  | Raise e => Raise e
  end.

(** [try: r except Exception: raise e] *)
Definition reraise {A} (r : result A) (e : exn) : result A :=
  match r with
  | Ok a => Ok a
  | Raise _ => Raise e
  end.

(** ** The hover-color utility *)

(** A value found in the theme: a string, a list, or anything else
    (a number, [None], a nested table). *)
#[warnings="-register-all"]
Inductive pyval : Type :=
| PyStr (s : string)
| PyList (l : list pyval)
| PyOther.

(** The literal [0.85]: the binary64 number nearest to 85/100. *)
Definition factor : spec_float := S754_finite false 7656119366529843 (-53).

(** [max(0, int(r * factor))] *)
Definition darken (r : Z) : result Z :=
  x ← int_of_float (fmul (float_of_int r) factor);
  Ok (Z.max 0 x).

(** [int(v / 256)] for one value of the triple [winfo_rgb] returns. *)
Definition channel_of_rgb16 (v : Z) : result Z :=
  int_of_float (fdiv (float_of_int v) (float_of_int 256)).

Section HoverColor.

(** [ctk.ThemeManager.theme["CTkButton"]["fg_color"]] when it is a table
    keyed by strings; [None] when it is not (in the stock themes it is a
    two-element list, and subscripting it with a string raises). *)
Variable theme_fg_color : option (gmap string pyval).

(** [self.master.winfo_rgb]: the toolkit's resolution of a color name to
    a triple of integers; [None] when the toolkit raises. *)
Variable winfo_rgb : string -> option (Z * Z * Z).

(** The subscript [...["fg_color"][name]]; [None] when it raises. *)
Definition theme_entry (name : string) : option pyval :=
  match theme_fg_color with
  | Some table => table !! name
  | None => None
  end.

(** The [try] block of lines 111-117: the theme's color for [name], or
    [None] when any step of it raises (the [except] branch). *)
Definition theme_lookup (name : string) : option string :=
  match theme_entry name with
  | Some v =>
      let v0 := match v with
                | PyList l => head l
                | _ => Some v
                end in
      match v0 with
      | Some (PyStr c) => if startswith_hash c then Some c else None
      | _ => None
      end
  | None => None
  end.

Definition unknown_name (color_code : string) : exn :=
  ValueError ("Unknown or invalid color name: '" ++ color_code ++ "'").

(** Lines 121-136: the three channels of [color_code]. *)
Definition resolve_rgb (color_code : string) : result (Z * Z * Z) :=
  if negb (startswith_hash color_code) then
    match winfo_rgb color_code with
    | Some (vr, vg, vb) =>
        reraise (r ← channel_of_rgb16 vr;
                 g ← channel_of_rgb16 vg;
                 b ← channel_of_rgb16 vb;
                 Ok (r, g, b))
                (unknown_name color_code)
    | None => Raise (unknown_name color_code)
    end
  else if negb (String.length color_code =? 7)%nat then
    Raise (ValueError "Color code must be in format '#RRGGBB'.")
  else
    match int16 (slice 1 3 color_code),
          int16 (slice 3 5 color_code),
          int16 (slice 5 7 color_code) with
    | Some r, Some g, Some b => Ok (r, g, b)
    | _, _, _ => Raise (ValueError "Invalid hex values in color code.")
    end.

(** Lines 138-145. *)
Definition darken_rgb (rgb : Z * Z * Z) : result string :=
  let '(r, g, b) := rgb in
  r' ← darken r;
  g' ← darken g;
  b' ← darken b;
  Ok ("#" ++ format_02x r' ++ format_02x g' ++ format_02x b').

(** Lines 110-119: the theme's color, or the argument itself when the
    lookup raises. *)
Definition color_code_of (color_name_or_code : string) : string :=
  match theme_lookup color_name_or_code with
  | Some c => c
  | None => color_name_or_code
  end.

(** The value [_get_hover_color] computes for its argument. *)
Definition get_hover_color (color_name_or_code : string) : result string :=
  rgb ← resolve_rgb (color_code_of color_name_or_code);
  darken_rgb rgb.

End HoverColor.

(** ** The widget *)

(** The [state] option of the text box. *)
Inductive entry_state : Type := normal | disabled.

(** The end of a selection: an index, or the toolkit's ['end']. *)
Inductive index : Type := At (i : Z) | End.

(** [self.Entry]: the options and the state of the text box that the class
    touches. *)
Record CTkEntry : Type := {
  state : entry_state;
  focus : bool;
  selection : option (index * index)
}.

(** A callable kept in an attribute of the widget: the truth value of the
    object, which [if cb:] tests, and what it runs when it is called. *)
Record callable (callback : Type) : Type := {
  truth : bool;
  action : callback
}.
Arguments truth {callback} _.
Arguments action {callback} _.

(** [self.EditButton]: the options of the button that the class sets. *)
Record CTkButton : Type := {
  fg_color : string;
  hover_color : string;
  text : string
}.

Section Widget.

Variable theme_fg_color : option (gmap string pyval).
Variable winfo_rgb : string -> option (Z * Z * Z).

(** The user's callbacks: [callback] names them, [run_callback] is what
    calling one does to the widget (a callback is a closure and may hold
    the widget), together with its outcome. An attribute holds [None] or a
    callable object. *)
Variable callback : Type.

(** The attributes of a [CTkSafeEditBox]. [entry_var] is the text held by
    the [StringVar]; [entry_var_trace] tells whether [_limit_characters]
    is registered as its write trace. [max_characters] is [None] or an
    integer: the constructor registers no trace for a value of another
    type, which is then as good as [None]. *)
Record widget : Type := {
  can_edit : bool;
  edit_disabled_text : string;
  edit_enabled_text : string;
  edit_disabled_color : string;
  edit_enabled_color : string;
  on_disable_edit_command : option (callable callback);
  on_enable_edit_command : option (callable callback);
  max_characters : option Z;
  entry_var : string;
  entry_var_trace : bool;
  widget_height : Z;
  Entry : CTkEntry;
  EditButton : CTkButton
}.

Variable run_callback : callback -> widget -> widget * result unit.

(** *** Methods: state passing with exceptions

    A method takes the widget and gives back the widget as it has left it
    and a value or an exception. *)
Definition M (A : Type) : Type := widget -> widget * result A.

#[local] Instance M_ret : MRet M := fun A a self => (self, Ok a).
#[local] Instance M_bind : MBind M := fun A B k m self =>
  match m self with
  | (self', Ok a) => k a self'
  | (self', Raise e) => (self', Raise e)
  end.

Definition get : M widget := fun self => (self, Ok self).
Definition modify (f : widget -> widget) : M unit := fun self => (f self, Ok tt).

(** *** Assignments *)

Definition set_can_edit (b : bool) (self : widget) : widget :=
  {| can_edit := b;
     edit_disabled_text := edit_disabled_text self;
     edit_enabled_text := edit_enabled_text self;
     edit_disabled_color := edit_disabled_color self;
     edit_enabled_color := edit_enabled_color self;
     on_disable_edit_command := on_disable_edit_command self;
     on_enable_edit_command := on_enable_edit_command self;
     max_characters := max_characters self;
     entry_var := entry_var self;
     entry_var_trace := entry_var_trace self;
     widget_height := widget_height self;
     Entry := Entry self;
     EditButton := EditButton self |}.

Definition set_entry_var (s : string) (self : widget) : widget :=
  {| can_edit := can_edit self;
     edit_disabled_text := edit_disabled_text self;
     edit_enabled_text := edit_enabled_text self;
     edit_disabled_color := edit_disabled_color self;
     edit_enabled_color := edit_enabled_color self;
     on_disable_edit_command := on_disable_edit_command self;
     on_enable_edit_command := on_enable_edit_command self;
     max_characters := max_characters self;
     entry_var := s;
     entry_var_trace := entry_var_trace self;
     widget_height := widget_height self;
     Entry := Entry self;
     EditButton := EditButton self |}.

Definition set_Entry (e : CTkEntry) (self : widget) : widget :=
  {| can_edit := can_edit self;
     edit_disabled_text := edit_disabled_text self;
     edit_enabled_text := edit_enabled_text self;
     edit_disabled_color := edit_disabled_color self;
     edit_enabled_color := edit_enabled_color self;
     on_disable_edit_command := on_disable_edit_command self;
     on_enable_edit_command := on_enable_edit_command self;
     max_characters := max_characters self;
     entry_var := entry_var self;
     entry_var_trace := entry_var_trace self;
     widget_height := widget_height self;
     Entry := e;
     EditButton := EditButton self |}.

Definition set_EditButton (b : CTkButton) (self : widget) : widget :=
  {| can_edit := can_edit self;
     edit_disabled_text := edit_disabled_text self;
     edit_enabled_text := edit_enabled_text self;
     edit_disabled_color := edit_disabled_color self;
     edit_enabled_color := edit_enabled_color self;
     on_disable_edit_command := on_disable_edit_command self;
     on_enable_edit_command := on_enable_edit_command self;
     max_characters := max_characters self;
     entry_var := entry_var self;
     entry_var_trace := entry_var_trace self;
     widget_height := widget_height self;
     Entry := Entry self;
     EditButton := b |}.

(** *** The toolkit calls on the two child widgets

    [configure] stores the options it is given; [focus_set] and
    [select_range] set the focus and the selection. *)

Definition Entry_configure_state (st : entry_state) : M unit :=
  modify (fun self =>
    set_Entry {| state := st;
                 focus := focus (Entry self);
                 selection := selection (Entry self) |} self).

Definition Entry_focus_set : M unit :=
  modify (fun self =>
    set_Entry {| state := state (Entry self);
                 focus := true;
                 selection := selection (Entry self) |} self).

Definition Entry_select_range (first last : index) : M unit :=
  modify (fun self =>
    set_Entry {| state := state (Entry self);
                 focus := focus (Entry self);
                 selection := Some (first, last) |} self).

Definition EditButton_configure (fg hover txt : string) : M unit :=
  modify (set_EditButton {| fg_color := fg; hover_color := hover; text := txt |}).

(** [if cb: cb()]: the callback is called when the attribute holds an
    object that is true; [None] is false. *)
Definition call_if_present (cb : option (callable callback)) : M unit :=
  match cb with
  | Some c => if truth c then run_callback (action c) else mret tt
  | None => mret tt
  end.

(** *** [_get_hover_color] (lines 99-145) *)
Definition _get_hover_color (color_name_or_code : string) : M string :=
  fun self => (self, get_hover_color theme_fg_color winfo_rgb color_name_or_code).

(** *** [toggle_edit_mode] (lines 71-93) *)
Definition toggle_edit_mode : M unit :=
  modify (fun self => set_can_edit (negb (can_edit self)) self);;
  self ← get;
  if can_edit self then
    Entry_configure_state normal;;
    hover ← _get_hover_color (edit_enabled_color self);
    EditButton_configure (edit_enabled_color self) hover (edit_enabled_text self);;
    Entry_focus_set;;
    Entry_select_range (At 0) End;;
    call_if_present (on_enable_edit_command self)
  else
    Entry_configure_state disabled;;
    hover ← _get_hover_color (edit_disabled_color self);
    EditButton_configure (edit_disabled_color self) hover (edit_disabled_text self);;
    call_if_present (on_disable_edit_command self).

(** *** [_limit_characters] (lines 95-97)

    Comparing a length with [None] raises [TypeError]. *)
Definition _limit_characters : M unit :=
  self ← get;
  match max_characters self with
  | Some m =>
      if Z.of_nat (String.length (entry_var self)) >=? m then
        modify (set_entry_var (prefix m (entry_var self)))
      else mret tt
  | None => fun self' => (self', Raise TypeError)
  end.

(** A text mutation: a write to the [StringVar], followed by its write
    trace when one is registered. The toolkit disables a trace while it
    runs, so the write made by [_limit_characters] does not call it
    again. *)
Definition write (s : string) : M unit :=
  modify (set_entry_var s);;
  self ← get;
  if entry_var_trace self then _limit_characters else mret tt.

(** *** [__init__] (lines 9-69) *)

(** The arguments of the constructor. *)
Record config : Type := {
  cfg_edit_disabled_text : string;
  cfg_edit_enabled_text : string;
  cfg_edit_disabled_color : string;
  cfg_edit_enabled_color : string;
  cfg_max_characters : option Z;
  cfg_on_disable_edit_command : option (callable callback);
  cfg_on_enable_edit_command : option (callable callback)
}.

Definition default_config : config :=
  {| cfg_edit_disabled_text := "A";
     cfg_edit_enabled_text := "M";
     cfg_edit_disabled_color := "red";
     cfg_edit_enabled_color := "green";
     cfg_max_characters := None;
     cfg_on_disable_edit_command := None;
     cfg_on_enable_edit_command := None |}.

(** The constructor returns the widget or raises: the hover color of the
    disabled color is computed while the button is being built. *)
Definition __init__ (cfg : config) : result widget :=
  hover ← get_hover_color theme_fg_color winfo_rgb (cfg_edit_disabled_color cfg);
  Ok {| can_edit := false;
        edit_disabled_text := cfg_edit_disabled_text cfg;
        edit_enabled_text := cfg_edit_enabled_text cfg;
        edit_disabled_color := cfg_edit_disabled_color cfg;
        edit_enabled_color := cfg_edit_enabled_color cfg;
        on_disable_edit_command := cfg_on_disable_edit_command cfg;
        on_enable_edit_command := cfg_on_enable_edit_command cfg;
        max_characters := cfg_max_characters cfg;
        entry_var := "";
        entry_var_trace := match cfg_max_characters cfg with
                           | Some _ => true
                           | None => false
                           end;
        widget_height := 28;
        Entry := {| state := disabled; focus := false; selection := None |};
        EditButton := {| fg_color := cfg_edit_disabled_color cfg;
                         hover_color := hover;
                         text := cfg_edit_disabled_text cfg |} |}.

(** *** Runs of the widget *)

Inductive event : Type :=
| Toggle
| Write (s : string).

(** One event; an exception it raises is reported by the toolkit's event
    loop and the widget lives on in the state the method left. *)
Definition step (e : event) (self : widget) : widget :=
  match e with
  | Toggle => fst (toggle_edit_mode self)
  | Write s => fst (write s self)
  end.

Definition run (es : list event) (self : widget) : widget :=
  fold_left (fun w e => step e w) es self.

Inductive reachable (cfg : config) : widget -> Prop :=
| reachable_init self :
    __init__ cfg = Ok self -> reachable cfg self
| reachable_step self e :
    reachable cfg self -> reachable cfg (step e self).

End Widget.

Arguments can_edit {callback} _.
Arguments edit_disabled_text {callback} _.
Arguments edit_enabled_text {callback} _.
Arguments edit_disabled_color {callback} _.
Arguments edit_enabled_color {callback} _.
Arguments on_disable_edit_command {callback} _.
Arguments on_enable_edit_command {callback} _.
Arguments max_characters {callback} _.
Arguments entry_var {callback} _.
Arguments entry_var_trace {callback} _.
Arguments widget_height {callback} _.
Arguments Entry {callback} _.
Arguments EditButton {callback} _.

Arguments _get_hover_color theme_fg_color winfo_rgb {callback} _ _.
Arguments toggle_edit_mode theme_fg_color winfo_rgb {callback} run_callback _.
Arguments _limit_characters {callback} _.
Arguments write {callback} _ _.
Arguments __init__ theme_fg_color winfo_rgb {callback} cfg.
Arguments step theme_fg_color winfo_rgb {callback} run_callback e self.
Arguments run theme_fg_color winfo_rgb {callback} run_callback es self.
Arguments reachable theme_fg_color winfo_rgb {callback} run_callback cfg _.
Arguments call_if_present {callback} run_callback cb _.
Arguments set_can_edit {callback} b self.
Arguments set_entry_var {callback} s self.
Arguments set_Entry {callback} e self.
Arguments set_EditButton {callback} b self.
Arguments cfg_edit_disabled_text {callback} _.
Arguments cfg_edit_enabled_text {callback} _.
Arguments cfg_edit_disabled_color {callback} _.
Arguments cfg_edit_enabled_color {callback} _.
Arguments cfg_max_characters {callback} _.
Arguments cfg_on_disable_edit_command {callback} _.
Arguments cfg_on_enable_edit_command {callback} _.

(** ** States of the widget *)

(** The widget after a toggle into edit mode that got through: writable,
    focused, all text selected, the button in its enabled look. *)
Definition enabled_state {callback} (hover : string) (self : widget callback)
  : widget callback :=
  {| can_edit := true;
     edit_disabled_text := edit_disabled_text self;
     edit_enabled_text := edit_enabled_text self;
     edit_disabled_color := edit_disabled_color self;
     edit_enabled_color := edit_enabled_color self;
     on_disable_edit_command := on_disable_edit_command self;
     on_enable_edit_command := on_enable_edit_command self;
     max_characters := max_characters self;
     entry_var := entry_var self;
     entry_var_trace := entry_var_trace self;
     widget_height := widget_height self;
     Entry := {| state := normal; focus := true; selection := Some (At 0, End) |};
     EditButton := {| fg_color := edit_enabled_color self;
                      hover_color := hover;
                      text := edit_enabled_text self |} |}.

(** The widget after a toggle out of edit mode: read-only, the button in
    its disabled look. *)
Definition disabled_state {callback} (hover : string) (self : widget callback)
  : widget callback :=
  {| can_edit := false;
     edit_disabled_text := edit_disabled_text self;
     edit_enabled_text := edit_enabled_text self;
     edit_disabled_color := edit_disabled_color self;
     edit_enabled_color := edit_enabled_color self;
     on_disable_edit_command := on_disable_edit_command self;
     on_enable_edit_command := on_enable_edit_command self;
     max_characters := max_characters self;
     entry_var := entry_var self;
     entry_var_trace := entry_var_trace self;
     widget_height := widget_height self;
     Entry := {| state := disabled;
                 focus := focus (Entry self);
                 selection := selection (Entry self) |};
     EditButton := {| fg_color := edit_disabled_color self;
                      hover_color := hover;
                      text := edit_disabled_text self |} |}.

(** What a toggle into edit mode leaves when [_get_hover_color] raises:
    the flag and the text box are switched, the button is not. *)
Definition half_enabled_state {callback} (self : widget callback) : widget callback :=
  set_Entry {| state := normal;
               focus := focus (Entry self);
               selection := selection (Entry self) |}
    (set_can_edit true self).

(** The same for a toggle out of edit mode. *)
Definition half_disabled_state {callback} (self : widget callback) : widget callback :=
  set_Entry {| state := disabled;
               focus := focus (Entry self);
               selection := selection (Entry self) |}
    (set_can_edit false self).

(** The fields a toggle reads or writes when it flips the button. *)
Definition toggle_fields {callback} (self : widget callback) :=
  (can_edit self, EditButton self,
   (edit_disabled_text self, edit_enabled_text self),
   (edit_disabled_color self, edit_enabled_color self)).

(** Those and the state of the text box. *)
Definition machine_fields {callback} (self : widget callback) :=
  (toggle_fields self, state (Entry self)).

(** The callbacks leave the view [f] of the widget as they find it. *)
Definition keeps {callback A}
    (run_callback : callback -> widget callback -> widget callback * result unit)
    (f : widget callback -> A) : Prop :=
  forall c self, f (fst (run_callback c self)) = f self.

(** The toolkit's colors have 16 bits a channel. *)
Definition rgb16 (winfo_rgb : string -> option (Z * Z * Z)) : Prop :=
  forall name vr vg vb, winfo_rgb name = Some (vr, vg, vb) ->
    0 <= vr <= 65535 /\ 0 <= vg <= 65535 /\ 0 <= vb <= 65535.

(** A run of text mutations. *)
Definition writes (texts : list string) : list event := map Write texts.

Section States.

Variable theme_fg_color : option (gmap string pyval).
Variable winfo_rgb : string -> option (Z * Z * Z).
Variable callback : Type.

(** The two states of the specification's machine. *)
Definition DISABLED (cfg : config callback) (self : widget callback) : Prop :=
  can_edit self = false /\
  state (Entry self) = disabled /\
  fg_color (EditButton self) = cfg_edit_disabled_color cfg /\
  text (EditButton self) = cfg_edit_disabled_text cfg /\
  get_hover_color theme_fg_color winfo_rgb (cfg_edit_disabled_color cfg)
    = Ok (hover_color (EditButton self)).

Definition ENABLED (cfg : config callback) (self : widget callback) : Prop :=
  can_edit self = true /\
  state (Entry self) = normal /\
  fg_color (EditButton self) = cfg_edit_enabled_color cfg /\
  text (EditButton self) = cfg_edit_enabled_text cfg /\
  get_hover_color theme_fg_color winfo_rgb (cfg_edit_enabled_color cfg)
    = Ok (hover_color (EditButton self)).

(** What every reachable widget satisfies when the callbacks keep the
    toggle's fields: the configured labels and colors are the
    constructor's, the hover color of the disabled color can be computed,
    and the button shows the look of the last toggle that got as far as
    the button. *)
Definition button_inv (cfg : config callback) (self : widget callback) : Prop :=
  edit_disabled_text self = cfg_edit_disabled_text cfg /\
  edit_enabled_text self = cfg_edit_enabled_text cfg /\
  edit_disabled_color self = cfg_edit_disabled_color cfg /\
  edit_enabled_color self = cfg_edit_enabled_color cfg /\
  exists hd,
    get_hover_color theme_fg_color winfo_rgb (cfg_edit_disabled_color cfg) = Ok hd /\
    let off := {| fg_color := cfg_edit_disabled_color cfg;
                  hover_color := hd;
                  text := cfg_edit_disabled_text cfg |} in
    EditButton self =
      if can_edit self then
        match get_hover_color theme_fg_color winfo_rgb (cfg_edit_enabled_color cfg) with
        | Ok he => {| fg_color := cfg_edit_enabled_color cfg;
                      hover_color := he;
                      text := cfg_edit_enabled_text cfg |}
        | Raise _ => off
        end
      else off.

End States.

Arguments DISABLED theme_fg_color winfo_rgb {callback} cfg self.
Arguments ENABLED theme_fg_color winfo_rgb {callback} cfg self.
Arguments button_inv theme_fg_color winfo_rgb {callback} cfg self.

(** ** The color utility as the specification words it

    "Parses [#RRGGBB] directly ... multiplying each channel by 0.85,
    floored, clamped at 0, re-encoded as [#RRGGBB]." *)

Module Spec.

Definition is_hexdigit (c : ascii) : bool :=
  let n := N_of_ascii c in
  (((48 <=? n) && (n <=? 57)) || ((97 <=? n) && (n <=? 102))
   || ((65 <=? n) && (n <=? 70)))%N.

Definition hexval (c : ascii) : Z :=
  let n := Z.of_N (N_of_ascii c) in
  if n <=? 57 then n - 48 else if n <=? 70 then n - 55 else n - 87.

(** A [#] followed by six hexadecimal digits. *)
Definition is_hex_color (s : string) : bool :=
  match list_ascii_of_string s with
  | [h; r1; r2; g1; g2; b1; b2] =>
      Ascii.eqb h "#" && forallb is_hexdigit [r1; r2; g1; g2; b1; b2]
  | _ => false
  end.

Definition channel (hi lo : ascii) : Z := 16 * hexval hi + hexval lo.

(** A channel times 0.85, floored, clamped at 0. *)
Definition darken (r : Z) : Z := Z.max 0 (85 * r / 100).

Definition hexdigit (d : Z) : ascii :=
  ascii_of_N (Z.to_N (if d <? 10 then 48 + d else 87 + d)).

(** A channel as two lowercase hexadecimal digits. *)
Definition two_hex (r : Z) : string :=
  String (hexdigit (r / 16)) (String (hexdigit (r mod 16)) "").

Definition encode (r g b : Z) : string :=
  "#" ++ two_hex r ++ two_hex g ++ two_hex b.

(** The hover color of [#RRGGBB]. *)
Definition hover (s : string) : string :=
  match list_ascii_of_string s with
  | [_; r1; r2; g1; g2; b1; b2] =>
      encode (darken (channel r1 r2)) (darken (channel g1 g2)) (darken (channel b1 b2))
  | _ => ""
  end.

Definition is_lower_hexdigit (c : ascii) : bool :=
  let n := N_of_ascii c in
  (((48 <=? n) && (n <=? 57)) || ((97 <=? n) && (n <=? 102)))%N.

End Spec.

Definition all_ascii : list ascii := map ascii_of_nat (seq 0 256).

(** [Q] on the [n] integers from [lo] on. *)
Fixpoint check_from (Q : Z -> bool) (n : nat) (lo : Z) : bool :=
  match n with
  | O => true
  | S n' => Q lo && check_from Q n' (lo + 1)
  end.

(** Two characters as a string. *)
Definition two (c1 c2 : ascii) : string := String c1 (String c2 "").

(** ** A concrete toolkit, for examples *)

(** The stock theme: the button's [fg_color] is a list, not a table. *)
Definition stock_theme : option (gmap string pyval) := None.

(** A theme whose button colors are a table. *)
Definition table_theme : option (gmap string pyval) :=
  Some {[ "primary" := PyList [PyStr "#3B8ED0"; PyStr "#1F6AA5"] ]}.

(** The toolkit's answer for the two default colors; it knows no other
    name. *)
Definition tk_rgb (name : string) : option (Z * Z * Z) :=
  if String.eqb name "red" then Some (65535, 0, 0)
  else if String.eqb name "green" then Some (0, 32896, 0)
  else None.

(** A callback that does nothing. *)
Definition idle (c : unit) (self : widget unit) : widget unit * result unit :=
  (self, Ok tt).

(** A callback that writes its own label on the button. *)
Definition relabel (c : unit) (self : widget unit) : widget unit * result unit :=
  (set_EditButton {| fg_color := fg_color (EditButton self);
                     hover_color := hover_color (EditButton self);
                     text := "X" |} self,
   Ok tt).

(** The default configuration with a maximum of 8 characters, as in the
    module's demo. *)
Definition demo_config : config unit :=
  {| cfg_edit_disabled_text := "A";
     cfg_edit_enabled_text := "M";
     cfg_edit_disabled_color := "red";
     cfg_edit_enabled_color := "green";
     cfg_max_characters := Some 8;
     cfg_on_disable_edit_command := None;
     cfg_on_enable_edit_command := None |}.

(** The widget the constructor builds from [demo_config]. *)
Definition demo_widget : widget unit :=
  {| can_edit := false;
     edit_disabled_text := "A";
     edit_enabled_text := "M";
     edit_disabled_color := "red";
     edit_enabled_color := "green";
     on_disable_edit_command := None;
     on_enable_edit_command := None;
     max_characters := Some 8;
     entry_var := "";
     entry_var_trace := true;
     widget_height := 28;
     Entry := {| state := disabled; focus := false; selection := None |};
     EditButton := {| fg_color := "red"; hover_color := "#d80000"; text := "A" |} |}.

(** The demo with a callback on leaving edit mode. *)
Definition callback_config : config unit :=
  {| cfg_edit_disabled_text := "A";
     cfg_edit_enabled_text := "M";
     cfg_edit_disabled_color := "red";
     cfg_edit_enabled_color := "green";
     cfg_max_characters := Some 8;
     cfg_on_disable_edit_command := Some {| truth := true; action := tt |};
     cfg_on_enable_edit_command := None |}.

(** The demo with a callback on either toggle. *)
Definition hooked_config : config unit :=
  {| cfg_edit_disabled_text := "A";
     cfg_edit_enabled_text := "M";
     cfg_edit_disabled_color := "red";
     cfg_edit_enabled_color := "green";
     cfg_max_characters := Some 8;
     cfg_on_disable_edit_command := Some {| truth := true; action := tt |};
     cfg_on_enable_edit_command := Some {| truth := true; action := tt |} |}.

(** The widget the constructor builds from [hooked_config], and that
    widget in edit mode. *)
Definition hooked_widget : widget unit :=
  {| can_edit := false;
     edit_disabled_text := "A";
     edit_enabled_text := "M";
     edit_disabled_color := "red";
     edit_enabled_color := "green";
     on_disable_edit_command := Some {| truth := true; action := tt |};
     on_enable_edit_command := Some {| truth := true; action := tt |};
     max_characters := Some 8;
     entry_var := "";
     entry_var_trace := true;
     widget_height := 28;
     Entry := {| state := disabled; focus := false; selection := None |};
     EditButton := {| fg_color := "red"; hover_color := "#d80000"; text := "A" |} |}.

Definition hooked_widget_editing : widget unit := enabled_state "#006c00" hooked_widget.

(** The demo with a callback on entering edit mode that is an object
    whose truth value is false (a callable with [__bool__] returning
    [False], or with [__len__] returning 0). *)
Definition false_hook_config : config unit :=
  {| cfg_edit_disabled_text := "A";
     cfg_edit_enabled_text := "M";
     cfg_edit_disabled_color := "red";
     cfg_edit_enabled_color := "green";
     cfg_max_characters := Some 8;
     cfg_on_disable_edit_command := None;
     cfg_on_enable_edit_command := Some {| truth := false; action := tt |} |}.

(** The demo with a three-digit code as the enabled color: a color for the
    toolkit, not for [_get_hover_color]. *)
Definition short_code_config : config unit :=
  {| cfg_edit_disabled_text := "A";
     cfg_edit_enabled_text := "M";
     cfg_edit_disabled_color := "red";
     cfg_edit_enabled_color := "#0f0";
     cfg_max_characters := Some 8;
     cfg_on_disable_edit_command := None;
     cfg_on_enable_edit_command := None |}.

(** ** Vocabulary of the further properties *)

(** The lower case of an ASCII letter; any other character as it is. *)
Definition ascii_lower (c : ascii) : ascii :=
  let n := N_of_ascii c in
  if ((65 <=? n) && (n <=? 90))%N then ascii_of_N (n + 32) else c.

Fixpoint lower_string (s : string) : string :=
  match s with
  | EmptyString => EmptyString
  | String c rest => String (ascii_lower c) (lower_string rest)
  end.

(** Whitespace for [int] below code point 256: the blanks of its scanner
    and the two it turns into a blank first. *)
Definition is_blank (c : ascii) : bool := isspace c || isspace_high c.

Definition is_sign (c : ascii) : bool := Ascii.eqb c "+" || Ascii.eqb c "-".

(** The pairs of characters below code point 256 that [_get_hover_color]
    takes for a channel: two hexadecimal digits, or one with a sign or a
    blank before it, or one with a blank after it. (Beyond code point 255
    [int] also reads the decimal digits and blanks of other scripts.) *)
Definition accepted_pair (c1 c2 : ascii) : bool :=
  (Spec.is_hexdigit c1 && Spec.is_hexdigit c2)
  || ((is_sign c1 || is_blank c1) && Spec.is_hexdigit c2)
  || (Spec.is_hexdigit c1 && is_blank c2).

(** The codes with a leading [#] that [_get_hover_color] answers. *)
Definition accepted_code (s : string) : bool :=
  match list_ascii_of_string s with
  | [h; r1; r2; g1; g2; b1; b2] =>
      Ascii.eqb h "#" && accepted_pair r1 r2 && accepted_pair g1 g2 && accepted_pair b1 b2
  | _ => false
  end.

(** A theme value the lookup of lines 112-117 takes: a string with a
    leading [#], or a list whose first element is one. *)
Definition is_hash_string (v : pyval) : bool :=
  match v with
  | PyStr c => startswith_hash c
  | _ => false
  end.

Definition usable_theme_value (v : pyval) : bool :=
  match v with
  | PyList (v0 :: _) => is_hash_string v0
  | PyList [] => false
  | _ => is_hash_string v
  end.

(** The outcome is a value or a [ValueError]. *)
Definition ok_or_ValueError {A} (r : result A) : bool :=
  returns r || is_ValueError r.

(** The number of toggles in a run. *)
Fixpoint toggles (es : list event) : nat :=
  match es with
  | [] => 0%nat
  | Toggle :: rest => S (toggles rest)
  | Write _ :: rest => toggles rest
  end.

(** The fields the character limiter reads or writes. *)
Definition limiter_fields {callback} (self : widget callback) :=
  (entry_var self, max_characters self, entry_var_trace self).

(** The limiter is set up by the constructor and stays as it is, when the
    callbacks leave it alone. *)
Definition limiter_is {callback} (m : option Z) (self : widget callback) : Prop :=
  max_characters self = m /\
  entry_var_trace self = match m with Some _ => true | None => false end.

(** A theme table with a color name where a code should be. *)
Definition shadow_theme : option (gmap string pyval) :=
  Some {[ "red" := PyStr "crimson" ]}.

(** The demo's configuration with another maximum. *)
Definition limited (m : option Z) : config unit :=
  {| cfg_edit_disabled_text := "A";
     cfg_edit_enabled_text := "M";
     cfg_edit_disabled_color := "red";
     cfg_edit_enabled_color := "green";
     cfg_max_characters := m;
     cfg_on_disable_edit_command := None;
     cfg_on_enable_edit_command := None |}.

(** The widget the constructor builds on the concrete toolkit. *)
Definition built (cfg : config unit) : widget unit :=
  match __init__ stock_theme tk_rgb cfg with
  | Ok self => self
  | Raise _ => demo_widget
  end.

(** * Proofs *)

(** ** Checking a property on every character and on a range of integers *)

Lemma all_ascii_complete (c : ascii) : In c all_ascii.
Proof.
  unfold all_ascii. rewrite <- (ascii_nat_embedding c).
  apply in_map, in_seq. pose proof (nat_ascii_bounded c). lia.
Qed.

Lemma forall_ascii (Q : ascii -> bool) :
  forallb Q all_ascii = true -> forall c, Q c = true.
Proof.
  intros H c. rewrite forallb_forall in H. apply H, all_ascii_complete.
Qed.

Lemma forall_ascii2 (Q : ascii -> ascii -> bool) :
  forallb (fun c1 => forallb (Q c1) all_ascii) all_ascii = true ->
  forall c1 c2, Q c1 c2 = true.
Proof.
  intros H c1 c2. apply forall_ascii. revert c1. apply forall_ascii. exact H.
Qed.

Lemma check_from_sound (Q : Z -> bool) (n : nat) :
  forall lo, check_from Q n lo = true ->
  forall z, lo <= z < lo + Z.of_nat n -> Q z = true.
Proof.
  induction n as [|n IH]; intros lo H z Hz; [lia|].
  simpl in H. apply andb_prop in H as [H0 H1].
  destruct (Z.eq_dec z lo) as [->|Hne]; [exact H0|].
  apply (IH (lo + 1) H1). lia.
Qed.

Lemma forall_range (Q : Z -> bool) (len lo : Z) :
  check_from Q (Z.to_nat len) lo = true ->
  forall z, lo <= z < lo + len -> Q z = true.
Proof.
  intros H z Hz. apply (check_from_sound Q (Z.to_nat len) lo H). lia.
Qed.

(** ** The runtime on the inputs the utility gives it *)

(** What [int(s, 16)] accepts and refuses. *)
Example int16_accepts :
  int16 "ff" = Some 255 /\ int16 "0A" = Some 10 /\ int16 "+f" = Some 15 /\
  int16 "-f" = Some (-15) /\ int16 " f" = Some 15 /\ int16 "f " = Some 15 /\
  int16 " -0xAb " = Some (-171) /\ int16 "f_f" = Some 255.
Proof. repeat split; reflexivity. Qed.

Example int16_refuses :
  int16 "" = None /\ int16 "g1" = None /\ int16 "0x" = None /\
  int16 "_f" = None /\ int16 "f_" = None /\ int16 "f__f" = None /\
  int16 "+ f" = None /\ int16 "f?" = None.
Proof. repeat split; reflexivity. Qed.

(** The literal [0.85] is 85/100 rounded to the nearest binary64 number. *)
Example factor_is_nearest : fdiv (float_of_int 85) (float_of_int 100) = factor.
Proof. vm_compute. reflexivity. Qed.

(** Two hexadecimal digits parse to their value. *)
Lemma int16_hex_pair (c1 c2 : ascii) :
  Spec.is_hexdigit c1 = true -> Spec.is_hexdigit c2 = true ->
  int16 (two c1 c2) = Some (Spec.channel c1 c2) /\ 0 <= Spec.channel c1 c2 <= 255.
Proof.
  intros H1 H2.
  pose proof (forall_ascii2
    (fun a b => implb (Spec.is_hexdigit a && Spec.is_hexdigit b)
       (bool_decide (int16 (two a b) = Some (Spec.channel a b))
        && (0 <=? Spec.channel a b) && (Spec.channel a b <=? 255)))) as E.
  specialize (E ltac:(vm_compute; reflexivity) c1 c2).
  cbv beta in E. rewrite H1, H2 in E. simpl in E.
  apply andb_prop in E as [E E3]. apply andb_prop in E as [E1 E2].
  apply bool_decide_eq_true in E1. split; [exact E1 | lia].
Qed.

(** Whatever two characters [int] accepts, the value is small: a digit
    pair, or one digit with a sign or a blank. *)
Lemma int16_pair_bounds (c1 c2 : ascii) (v : Z) :
  int16 (two c1 c2) = Some v -> -15 <= v <= 255.
Proof.
  intros H.
  pose proof (forall_ascii2
    (fun a b => match int16 (two a b) with
                | Some x => (-15 <=? x) && (x <=? 255)
                | None => true
                end)) as E.
  specialize (E ltac:(vm_compute; reflexivity) c1 c2).
  cbv beta in E. rewrite H in E. lia.
Qed.

(** On the channels a hex code or a name can give, the binary64 product
    with 0.85 truncates to the floor of the exact product. *)
Lemma darken_spec (r : Z) :
  -15 <= r <= 255 -> darken r = Ok (Spec.darken r).
Proof.
  intros Hr.
  pose proof (forall_range
    (fun z => bool_decide (darken z = Ok (Spec.darken z))) 271 (-15)) as E.
  specialize (E ltac:(vm_compute; reflexivity) r ltac:(lia)).
  now apply bool_decide_eq_true in E.
Qed.

Lemma darken_range (r : Z) :
  -15 <= r <= 255 -> 0 <= Spec.darken r <= 216 /\ Spec.darken r <= Z.max 0 r.
Proof.
  unfold Spec.darken. intros Hr.
  pose proof (Z_div_mod_eq_full (85 * r) 100) as Hd.
  pose proof (Z.mod_pos_bound (85 * r) 100 ltac:(lia)) as Hm.
  lia.
Qed.

(** Formatting a channel gives the two lowercase digits of the
    specification's encoding. *)
Lemma format_02x_spec (x : Z) :
  0 <= x <= 255 ->
  format_02x x = Spec.two_hex x /\
  String.length (format_02x x) = 2%nat /\
  forallb Spec.is_lower_hexdigit (list_ascii_of_string (format_02x x)) = true.
Proof.
  intros Hx.
  pose proof (forall_range
    (fun z => bool_decide (format_02x z = Spec.two_hex z)
              && bool_decide (String.length (format_02x z) = 2%nat)
              && forallb Spec.is_lower_hexdigit (list_ascii_of_string (format_02x z)))
    256 0) as E.
  specialize (E ltac:(vm_compute; reflexivity) x ltac:(lia)).
  cbv beta in E. apply andb_prop in E as [E E3]. apply andb_prop in E as [E1 E2].
  apply bool_decide_eq_true in E1, E2. auto.
Qed.

(** *** Division by 256 in binary64

    [v / 256] is exact: the quotient keeps the mantissa of [float(v)] and
    lowers its exponent by 8. *)

Lemma div_eucl_pair (a b : Z) : Z.div_eucl a b = (a / b, a mod b).
Proof. unfold Z.div, Z.modulo. now destruct (Z.div_eucl a b). Qed.

Lemma SFdiv_core_256 (m : positive) (e : Z) :
  digits2_pos m = 53%positive -> -1000 <= e <= 900 ->
  SFdiv_core_binary prec emax (Z.pos m) e 4503599627370496 (-44)
    = (Z.pos m~0, e - 9, loc_Exact).
Proof.
  intros Hd He. unfold SFdiv_core_binary, Zdigits2. rewrite Hd.
  change (digits2_pos 4503599627370496) with 53%positive.
  replace (fexp prec emax (53 + e - (53 + -44))) with (e - 9)
    by (unfold fexp, emin, prec, emax; lia).
  replace (Z.min (e - 9) (e - -44)) with (e - 9) by lia.
  replace (e - -44 - (e - 9)) with 53 by lia.
  rewrite Z.shiftl_mul_pow2 by lia.
  rewrite div_eucl_pair.
  replace (Z.pos m * 2 ^ 53) with (Z.pos m~0 * 4503599627370496) by lia.
  rewrite Z.div_mul by lia. rewrite Z.mod_mul by lia. reflexivity.
Qed.

Lemma binary_round_aux_54 (m : positive) (e : Z) :
  digits2_pos m = 53%positive -> -1000 <= e <= 900 ->
  binary_round_aux prec emax false (Z.pos m~0) (e - 9) loc_Exact
    = S754_finite false m (e - 8).
Proof.
  intros Hd He. unfold binary_round_aux, shr_fexp, Zdigits2.
  cbn [digits2_pos]. rewrite Hd.
  replace (fexp prec emax (Z.pos (Pos.succ 53) + (e - 9)) - (e - 9)) with 1
    by (unfold fexp, emin, prec, emax; lia).
  cbn [shr shr_record_of_loc SpecFloat.iter_pos shr_1 orb shr_m loc_of_shr_record
       round_nearest_even].
  rewrite Hd.
  replace (fexp prec emax (53 + (e - 9 + 1)) - (e - 9 + 1)) with 0
    by (unfold fexp, emin, prec, emax; lia).
  cbn [shr shr_record_of_loc shr_m].
  replace (e - 9 + 1 <=? emax - prec) with true by (unfold emax, prec; lia).
  f_equal. lia.
Qed.

Lemma fdiv_256 (m : positive) (e : Z) :
  digits2_pos m = 53%positive -> -1000 <= e <= 900 ->
  fdiv (S754_finite false m e) (float_of_int 256) = S754_finite false m (e - 8).
Proof.
  intros Hd He.
  change (float_of_int 256) with (S754_finite false 4503599627370496 (-44)).
  unfold fdiv, SFdiv. rewrite (SFdiv_core_256 m e Hd He).
  cbn [xorb]. exact (binary_round_aux_54 m e Hd He).
Qed.


(** The number of binary digits of a positive number. *)
Lemma digits2_pos_lower (p : positive) : 2 ^ (Z.pos (digits2_pos p) - 1) <= Z.pos p.
Proof.
  induction p as [p IH|p IH|]; cbn [digits2_pos]; [| |cbn; lia].
  - rewrite Pos2Z.inj_succ. replace (Z.succ (Z.pos (digits2_pos p)) - 1)
      with (Z.succ (Z.pos (digits2_pos p) - 1)) by lia.
    rewrite Z.pow_succ_r by lia. lia.
  - rewrite Pos2Z.inj_succ. replace (Z.succ (Z.pos (digits2_pos p)) - 1)
      with (Z.succ (Z.pos (digits2_pos p) - 1)) by lia.
    rewrite Z.pow_succ_r by lia. lia.
Qed.

Lemma iter_xO_spec (p d : positive) :
  digits2_pos (Pos.iter xO p d) = (digits2_pos p + d)%positive /\
  Z.pos (Pos.iter xO p d) = Z.pos p * 2 ^ Z.pos d.
Proof.
  induction d as [|d [IH1 IH2]] using Pos.peano_ind.
  - cbn. split; [now rewrite Pos.add_1_r | lia].
  - rewrite Pos.iter_succ. cbn [digits2_pos]. rewrite IH1, Pos.add_succ_r.
    split; [reflexivity|].
    rewrite Pos2Z.inj_xO, IH2, Pos2Z.inj_succ, Z.pow_succ_r by lia. lia.
Qed.

(** [float(v)] for a positive [v] of fewer than 53 binary digits: [v]
    itself, on a mantissa of 53 digits. *)
Lemma float_of_int_small (p : positive) :
  Z.pos (digits2_pos p) < 53 ->
  float_of_int (Z.pos p) =
    S754_finite false (Pos.iter xO p (Z.to_pos (53 - Z.pos (digits2_pos p))))
      (Z.pos (digits2_pos p) - 53).
Proof.
  intros Hk. set (k := Z.pos (digits2_pos p)) in *.
  assert (Hk1 : 1 <= k) by (subst k; lia).
  set (d := Z.to_pos (53 - k)).
  assert (Hd : Z.pos d = 53 - k) by (subst d; rewrite Z2Pos.id; lia).
  destruct (iter_xO_spec p d) as [Hdig _].
  unfold float_of_int, binary_normalize, binary_round, shl_align.
  fold k.
  replace (fexp prec emax (k + 0)) with (k - 53)
    by (unfold fexp, emin, prec, emax; lia).
  replace (k - 53 - 0) with (Z.neg d) by lia.
  unfold binary_round_aux, shr_fexp, Zdigits2. rewrite Hdig.
  replace (fexp prec emax (Z.pos (digits2_pos p + d) + (k - 53)) - (k - 53)) with 0
    by (unfold fexp, emin, prec, emax; subst k; lia).
  cbn [shr shr_record_of_loc shr_m loc_of_shr_record round_nearest_even].
  rewrite Hdig.
  replace (fexp prec emax (Z.pos (digits2_pos p + d) + (k - 53)) - (k - 53)) with 0
    by (unfold fexp, emin, prec, emax; subst k; lia).
  cbn [shr shr_m].
  replace (k - 53 <=? emax - prec) with true by (unfold emax, prec; lia).
  reflexivity.
Qed.

(** [int(v / 256)] on the 16-bit values of the toolkit. *)
Lemma channel_of_rgb16_spec (v : Z) :
  0 <= v <= 65535 -> channel_of_rgb16 v = Ok (v / 256).
Proof.
  intros Hv. destruct v as [|p|p]; [reflexivity| |lia].
  pose proof (digits2_pos_lower p) as Hlow.
  set (k := Z.pos (digits2_pos p)) in *.
  assert (Hk : 1 <= k <= 16).
  { split; [subst k; lia|].
    destruct (Z.le_gt_cases k 16) as [|Hgt]; [assumption|].
    assert (2 ^ 16 <= 2 ^ (k - 1)) by (apply Z.pow_le_mono_r; lia). lia. }
  set (d := Z.to_pos (53 - k)).
  assert (Hd : Z.pos d = 53 - k) by (subst d; rewrite Z2Pos.id; lia).
  destruct (iter_xO_spec p d) as [Hdig Hval].
  unfold channel_of_rgb16. rewrite float_of_int_small by (fold k; lia).
  fold k. fold d.
  rewrite fdiv_256; [| rewrite Hdig; fold k; lia | lia].
  unfold int_of_float. replace (0 <=? k - 53 - 8) with false by lia.
  rewrite Hval, Hd. replace (- (k - 53 - 8)) with (8 + (53 - k)) by lia.
  rewrite Z.pow_add_r by lia. rewrite Z.div_mul_cancel_r by lia. reflexivity.
Qed.

Lemma darken_rgb_spec (r g b : Z) :
  -15 <= r <= 255 -> -15 <= g <= 255 -> -15 <= b <= 255 ->
  darken_rgb (r, g, b) = Ok (Spec.encode (Spec.darken r) (Spec.darken g) (Spec.darken b)).
Proof.
  intros Hr Hg Hb. unfold darken_rgb.
  rewrite !darken_spec by assumption. cbn [mbind result_bind].
  destruct (darken_range r Hr) as [Hr' _], (darken_range g Hg) as [Hg' _],
    (darken_range b Hb) as [Hb' _].
  destruct (format_02x_spec (Spec.darken r)) as [-> _]; [lia|].
  destruct (format_02x_spec (Spec.darken g)) as [-> _]; [lia|].
  destruct (format_02x_spec (Spec.darken b)) as [-> _]; [lia|].
  reflexivity.
Qed.

Lemma hex_color_inv (s : string) :
  Spec.is_hex_color s = true ->
  exists r1 r2 g1 g2 b1 b2,
    s = String "#" (two r1 r2 ++ two g1 g2 ++ two b1 b2) /\
    Spec.is_hexdigit r1 = true /\ Spec.is_hexdigit r2 = true /\
    Spec.is_hexdigit g1 = true /\ Spec.is_hexdigit g2 = true /\
    Spec.is_hexdigit b1 = true /\ Spec.is_hexdigit b2 = true.
Proof.
  unfold Spec.is_hex_color.
  destruct s as [|h [|r1 [|r2 [|g1 [|g2 [|b1 [|b2 [|x s]]]]]]]]; cbn; try discriminate.
  intros H. exists r1, r2, g1, g2, b1, b2.
  repeat (apply andb_prop in H as [? H]).
  apply Ascii.eqb_eq in H0 as ->. repeat split; auto.
Qed.

(** ** The hover color *)

Section HoverFacts.
Variable theme : option (gmap string pyval).
Variable winfo : string -> option (Z * Z * Z).
Variable callback : Type.

Abbreviation hover_of := (get_hover_color theme winfo).

Lemma resolve_hex_color (r1 r2 g1 g2 b1 b2 : ascii) :
  resolve_rgb winfo (String "#" (two r1 r2 ++ two g1 g2 ++ two b1 b2)) =
    match int16 (two r1 r2), int16 (two g1 g2), int16 (two b1 b2) with
    | Some r, Some g, Some b => Ok (r, g, b)
    | _, _, _ => Raise (ValueError "Invalid hex values in color code.")
    end.
Proof. reflexivity. Qed.

(** C1: for a [#] followed by six hexadecimal digits that the theme does
    not resolve, [_get_hover_color] returns the code of the three channels
    each multiplied by 0.85, floored and clamped at 0, as two lowercase
    hexadecimal digits a channel; for [#808080] that is [#6c6c6c] and for
    [#FFFFFF] it is [#d8d8d8]. *)
Theorem hover_color_of_hex_code (s : string) (self : widget callback) :
  theme_lookup theme s = None ->
  Spec.is_hex_color s = true ->
  _get_hover_color theme winfo s self = (self, Ok (Spec.hover s)) /\
  Spec.hover "#808080" = "#6c6c6c" /\
  Spec.hover "#FFFFFF" = "#d8d8d8".
Proof.
  intros Hth Hs. split; [|split; reflexivity].
  destruct (hex_color_inv s Hs)
    as (r1 & r2 & g1 & g2 & b1 & b2 & -> & Hr1 & Hr2 & Hg1 & Hg2 & Hb1 & Hb2).
  destruct (int16_hex_pair r1 r2 Hr1 Hr2) as [Er Br].
  destruct (int16_hex_pair g1 g2 Hg1 Hg2) as [Eg Bg].
  destruct (int16_hex_pair b1 b2 Hb1 Hb2) as [Eb Bb].
  unfold _get_hover_color, get_hover_color, color_code_of. rewrite Hth.
  rewrite resolve_hex_color, Er, Eg, Eb. cbn [mbind result_bind].
  rewrite darken_rgb_spec by lia. reflexivity.
Qed.

(** C4: a name that is no key of the theme's table, does not start with
    [#] and is unknown to the toolkit makes [_get_hover_color] raise a
    [ValueError]. *)
Theorem unknown_name_raises (s : string) (self : widget callback) :
  theme_entry theme s = None ->
  startswith_hash s = false ->
  winfo s = None ->
  exists msg, _get_hover_color theme winfo s self = (self, Raise (ValueError msg)).
Proof.
  intros Hth Hh Hw. exists ("Unknown or invalid color name: '" ++ s ++ "'").
  unfold _get_hover_color, get_hover_color, color_code_of, theme_lookup. rewrite Hth.
  unfold resolve_rgb. rewrite Hh, Hw. reflexivity.
Qed.


(** A code that starts with [#]: the three channels are read from the six
    characters after it, whatever [int] makes of them. *)
Lemma resolve_hash_inv (c : string) (rgb : Z * Z * Z) :
  startswith_hash c = true ->
  resolve_rgb winfo c = Ok rgb ->
  exists r1 r2 g1 g2 b1 b2,
    c = String "#" (two r1 r2 ++ two g1 g2 ++ two b1 b2) /\
    int16 (two r1 r2) = Some (rgb.1.1) /\
    int16 (two g1 g2) = Some (rgb.1.2) /\
    int16 (two b1 b2) = Some (rgb.2).
Proof.
  intros Hh. unfold resolve_rgb. rewrite Hh. cbn [negb].
  destruct (String.length c =? 7)%nat eqn:Hlen; cbn [negb]; [|discriminate].
  apply Nat.eqb_eq in Hlen.
  destruct c as [|h [|r1 [|r2 [|g1 [|g2 [|b1 [|b2 [|x c]]]]]]]]; try discriminate.
  cbn in Hh. apply Ascii.eqb_eq in Hh as ->.
  change (slice 1 3 _) with (two r1 r2). change (slice 3 5 _) with (two g1 g2).
  change (slice 5 7 _) with (two b1 b2).
  intros H. exists r1, r2, g1, g2, b1, b2.
  destruct (int16 (two r1 r2)) as [r|]; [|discriminate].
  destruct (int16 (two g1 g2)) as [g|]; [|destruct (int16 (two b1 b2)); discriminate].
  destruct (int16 (two b1 b2)) as [b|]; [|discriminate].
  injection H as <-. repeat split; reflexivity.
Qed.

(** The channels [resolve_rgb] can give, for a toolkit with 16-bit colors. *)
Lemma resolve_rgb_bounds (c : string) (r g b : Z) :
  rgb16 winfo ->
  resolve_rgb winfo c = Ok (r, g, b) ->
  -15 <= r <= 255 /\ -15 <= g <= 255 /\ -15 <= b <= 255.
Proof.
  intros Hw H. destruct (startswith_hash c) eqn:Hh.
  - destruct (resolve_hash_inv c _ Hh H) as (r1 & r2 & g1 & g2 & b1 & b2 & _ & Er & Eg & Eb).
    cbn in Er, Eg, Eb.
    apply int16_pair_bounds in Er, Eg, Eb. auto.
  - unfold resolve_rgb in H. rewrite Hh in H. cbn [negb] in H.
    destruct (winfo c) as [[[vr vg] vb]|] eqn:E; [|discriminate].
    destruct (Hw c vr vg vb E) as (Hr & Hg & Hb).
    rewrite !channel_of_rgb16_spec in H by assumption.
    cbn in H. injection H as <- <- <-.
    pose proof (Z.div_pos vr 256). pose proof (Z.div_lt_upper_bound vr 256 256).
    pose proof (Z.div_pos vg 256). pose proof (Z.div_lt_upper_bound vg 256 256).
    pose proof (Z.div_pos vb 256). pose proof (Z.div_lt_upper_bound vb 256 256).
    lia.
Qed.

(** The shape of a result, for a toolkit whose colors have 16 bits a
    channel: 7 characters, a [#] and six lowercase hexadecimal digits, each
    channel between 0 and 216 and at most the channel read from the input
    where that one is not negative. *)
Theorem hover_color_shape (s out : string) (self : widget callback) :
  rgb16 winfo ->
  snd (_get_hover_color theme winfo s self) = Ok out ->
  exists r g b,
    resolve_rgb winfo (color_code_of theme s) = Ok (r, g, b) /\
    out = Spec.encode (Spec.darken r) (Spec.darken g) (Spec.darken b) /\
    String.length out = 7%nat /\
    startswith_hash out = true /\
    forallb Spec.is_lower_hexdigit (skipn 1 (list_ascii_of_string out)) = true /\
    (0 <= Spec.darken r <= 216 /\ 0 <= Spec.darken g <= 216 /\ 0 <= Spec.darken b <= 216) /\
    (Spec.darken r <= Z.max 0 r /\ Spec.darken g <= Z.max 0 g /\ Spec.darken b <= Z.max 0 b).
Proof.
  intros Hw H. cbn [snd _get_hover_color] in H. unfold get_hover_color in H.
  destruct (resolve_rgb winfo (color_code_of theme s)) as [[[r g] b]|e] eqn:E;
    [|discriminate].
  destruct (resolve_rgb_bounds _ r g b Hw E) as (Hr & Hg & Hb).
  cbn [mbind result_bind] in H. rewrite darken_rgb_spec in H by assumption.
  injection H as <-. exists r, g, b.
  destruct (darken_range r Hr) as [Hr1 Hr2], (darken_range g Hg) as [Hg1 Hg2],
    (darken_range b Hb) as [Hb1 Hb2].
  destruct (format_02x_spec (Spec.darken r)) as (Fr & _ & Lr); [lia|].
  destruct (format_02x_spec (Spec.darken g)) as (Fg & _ & Lg); [lia|].
  destruct (format_02x_spec (Spec.darken b)) as (Fb & _ & Lb); [lia|].
  rewrite Fr in Lr. rewrite Fg in Lg. rewrite Fb in Lb.
  do 4 (split; [reflexivity|]). split; [|lia].
  change (skipn 1 (list_ascii_of_string
            (Spec.encode (Spec.darken r) (Spec.darken g) (Spec.darken b))))
    with (list_ascii_of_string (Spec.two_hex (Spec.darken r))
          ++ list_ascii_of_string (Spec.two_hex (Spec.darken g))
          ++ list_ascii_of_string (Spec.two_hex (Spec.darken b)))%list.
  now rewrite !forallb_app, Lr, Lg, Lb.
Qed.

(** Where the code resolved is a [#] followed by six hexadecimal digits,
    or a name the toolkit knows, no channel read is negative and no
    channel of the result is above the one read. *)
Lemma well_formed_is_never_brighter (s out : string) (self : widget callback) :
  rgb16 winfo ->
  Spec.is_hex_color (color_code_of theme s) = true \/
    startswith_hash (color_code_of theme s) = false ->
  snd (_get_hover_color theme winfo s self) = Ok out ->
  exists r g b,
    resolve_rgb winfo (color_code_of theme s) = Ok (r, g, b) /\
    out = Spec.encode (Spec.darken r) (Spec.darken g) (Spec.darken b) /\
    (0 <= r /\ 0 <= g /\ 0 <= b) /\
    (Spec.darken r <= r /\ Spec.darken g <= g /\ Spec.darken b <= b).
Proof.
  intros Hw Hc H.
  destruct (hover_color_shape s out self Hw H) as (r & g & b & E & Eo & _ & _ & _ & _ & Hm).
  exists r, g, b. split; [exact E|]. split; [exact Eo|].
  assert (Hp : 0 <= r /\ 0 <= g /\ 0 <= b).
  { destruct Hc as [Hc|Hc].
    - destruct (hex_color_inv _ Hc) as (r1 & r2 & g1 & g2 & b1 & b2 & Es & H1 & H2 & H3 & H4 & H5 & H6).
      rewrite Es, resolve_hex_color in E.
      destruct (int16_hex_pair r1 r2 H1 H2) as [Er Br].
      destruct (int16_hex_pair g1 g2 H3 H4) as [Eg Bg].
      destruct (int16_hex_pair b1 b2 H5 H6) as [Eb Bb].
      rewrite Er, Eg, Eb in E. injection E as <- <- <-. lia.
    - unfold resolve_rgb in E. rewrite Hc in E. cbn [negb] in E.
      destruct (winfo (color_code_of theme s)) as [[[vr vg] vb]|] eqn:Ew; [|discriminate].
      destruct (Hw _ vr vg vb Ew) as (Hr & Hg & Hb).
      rewrite !channel_of_rgb16_spec in E by assumption.
      cbn in E. injection E as <- <- <-.
      pose proof (Z.div_pos vr 256). pose proof (Z.div_pos vg 256).
      pose proof (Z.div_pos vb 256). lia. }
  split; [exact Hp|]. lia.
Qed.

(** The part of C3 that holds: a code that starts with [#] and has another
    length than 7, or a pair of characters [int] refuses, raises. *)
Lemma malformed_code_raises (s : string) :
  theme_lookup theme s = None ->
  startswith_hash s = true ->
  String.length s <> 7%nat \/
  int16 (slice 1 3 s) = None \/ int16 (slice 3 5 s) = None \/ int16 (slice 5 7 s) = None ->
  is_ValueError (hover_of s) = true.
Proof.
  intros Hth Hh Hbad. unfold get_hover_color, color_code_of, resolve_rgb.
  rewrite Hth, Hh. cbn [negb].
  destruct (String.length s =? 7)%nat eqn:Hlen; cbn [negb]; [|reflexivity].
  apply Nat.eqb_eq in Hlen. destruct Hbad as [Hbad|Hbad]; [contradiction|].
  destruct (int16 (slice 1 3 s)), (int16 (slice 3 5 s)), (int16 (slice 5 7 s));
    try reflexivity.
  destruct Hbad as [|[|]]; discriminate.
Qed.

(** And such a code of length 7 whose three pairs [int] accepts is
    answered with a color. *)
Lemma accepted_code_returns (s : string) :
  theme_lookup theme s = None ->
  startswith_hash s = true ->
  String.length s = 7%nat ->
  is_Some (int16 (slice 1 3 s)) ->
  is_Some (int16 (slice 3 5 s)) ->
  is_Some (int16 (slice 5 7 s)) ->
  returns (hover_of s) = true.
Proof.
  intros Hth Hh Hlen.
  destruct s as [|h [|r1 [|r2 [|g1 [|g2 [|b1 [|b2 [|x s]]]]]]]]; try discriminate.
  cbn in Hh. apply Ascii.eqb_eq in Hh as ->.
  change (slice 1 3 _) with (two r1 r2). change (slice 3 5 _) with (two g1 g2).
  change (slice 5 7 _) with (two b1 b2).
  intros [r Hr] [g Hg] [b Hb].
  unfold get_hover_color, color_code_of. rewrite Hth.
  change (String "#" _) with (String "#" (two r1 r2 ++ two g1 g2 ++ two b1 b2)).
  rewrite resolve_hex_color, Hr, Hg, Hb. cbn [mbind result_bind].
  apply int16_pair_bounds in Hr, Hg, Hb.
  now rewrite darken_rgb_spec.
Qed.

End HoverFacts.

(** ** The widget *)

Section WidgetFacts.
Variable theme : option (gmap string pyval).
Variable winfo : string -> option (Z * Z * Z).
Variable callback : Type.
Variable run_callback : callback -> widget callback -> widget callback * result unit.

Abbreviation toggle := (toggle_edit_mode theme winfo run_callback).
Abbreviation hover_of := (get_hover_color theme winfo).
Abbreviation after_event := (step theme winfo run_callback).

(** ** The toggle, unfolded *)

Lemma toggle_from_disabled (self : widget callback) :
  can_edit self = false ->
  toggle self =
    match hover_of (edit_enabled_color self) with
    | Ok hover => call_if_present run_callback (on_enable_edit_command self) (enabled_state hover self)
    | Raise e => (half_enabled_state self, Raise e)
    end.
Proof.
  intros H. destruct self as [ce dt et dc ec ond one mx ev tr wh en bt].
  simpl in H; subst.
  cbv -[get_hover_color call_if_present].
  destruct (hover_of ec); reflexivity.
Qed.

Lemma toggle_from_enabled (self : widget callback) :
  can_edit self = true ->
  toggle self =
    match hover_of (edit_disabled_color self) with
    | Ok hover => call_if_present run_callback (on_disable_edit_command self) (disabled_state hover self)
    | Raise e => (half_disabled_state self, Raise e)
    end.
Proof.
  intros H. destruct self as [ce dt et dc ec ond one mx ev tr wh en bt].
  simpl in H; subst.
  cbv -[get_hover_color call_if_present].
  destruct (hover_of dc); reflexivity.
Qed.


Lemma call_if_present_keeps {A} (f : widget callback -> A) :
  keeps run_callback f ->
  forall cb self, f (fst (call_if_present run_callback cb self)) = f self.
Proof.
  intros K [[[] c]|] self; cbn [call_if_present truth action];
    [apply K | reflexivity | reflexivity].
Qed.

Lemma keeps_compose {A B} (f : widget callback -> A) (g : A -> B) :
  keeps run_callback f -> keeps run_callback (fun w => g (f w)).
Proof. intros K c self. unfold keeps in K. now rewrite K. Qed.

Lemma button_inv_init (cfg : config callback) (self : widget callback) :
  __init__ theme winfo cfg = Ok self -> button_inv theme winfo cfg self.
Proof.
  unfold __init__. destruct (hover_of (cfg_edit_disabled_color cfg)) as [hd|e] eqn:Hd;
    cbn; [|discriminate].
  intros [= <-]. cbn. repeat split. exists hd. rewrite Hd. split; reflexivity.
Qed.

Lemma write_fields (s : string) (self : widget callback) :
  machine_fields (fst (write s self)) = machine_fields self.
Proof.
  destruct self as [ce dt et dc ec ond one mx ev tr wh en bt].
  cbv -[prefix Z.geb String.length Z.of_nat].
  destruct tr; [|reflexivity]. destruct mx as [m|]; [|reflexivity].
  destruct (_ >=? _); reflexivity.
Qed.

Lemma toggle_fields_eq (w1 w2 : widget callback) :
  toggle_fields w1 = toggle_fields w2 ->
  forall cfg : config callback,
    button_inv theme winfo cfg w2 -> button_inv theme winfo cfg w1.
Proof.
  unfold toggle_fields, button_inv. intros [= -> -> -> -> -> ->] cfg H. exact H.
Qed.

Lemma button_inv_toggle (cfg : config callback) (self : widget callback) :
  keeps run_callback toggle_fields ->
  button_inv theme winfo cfg self -> button_inv theme winfo cfg (fst (toggle self)).
Proof.
  intros K (Hdt & Het & Hdc & Hec & hd & Hhd & Hb).
  destruct (can_edit self) eqn:Hce.
  - rewrite (toggle_from_enabled self Hce), Hdc, Hhd.
    apply (toggle_fields_eq _ (disabled_state hd self)).
    + apply (call_if_present_keeps toggle_fields K).
    + unfold button_inv, disabled_state; cbn. repeat split; try assumption.
      exists hd. split; [assumption|]. now rewrite Hdt, Hdc.
  - rewrite (toggle_from_disabled self Hce), Hec.
    destruct (hover_of (cfg_edit_enabled_color cfg)) as [he|e] eqn:Hhe.
    + apply (toggle_fields_eq _ (enabled_state he self)).
      * apply (call_if_present_keeps toggle_fields K).
      * unfold button_inv, enabled_state; cbn. repeat split; try assumption.
        exists hd. split; [assumption|]. now rewrite Hhe, Het, Hec.
    + unfold button_inv, half_enabled_state; cbn. repeat split; try assumption.
      exists hd. split; [assumption|]. now rewrite Hhe.
Qed.

Lemma button_inv_reachable (cfg : config callback) (self : widget callback) :
  keeps run_callback toggle_fields ->
  reachable theme winfo run_callback cfg self -> button_inv theme winfo cfg self.
Proof.
  intros K R. induction R as [self H|self e R IH].
  - now apply button_inv_init.
  - destruct e as [|s]; cbn [step].
    + now apply button_inv_toggle.
    + apply (toggle_fields_eq _ self); [|exact IH].
      pose proof (write_fields s self) as E. unfold machine_fields in E. congruence.
Qed.

(** C5, amended: when the callbacks leave the edit flag, the button and
    the configured labels and colors as they find them, then from every
    reachable state two toggles in a row bring back the edit flag, the
    button's label and the button's colors. This holds also when a toggle
    raises on the way. *)
Theorem toggle_twice_restores (cfg : config callback) (self : widget callback) :
  keeps run_callback toggle_fields ->
  reachable theme winfo run_callback cfg self ->
  let self2 := after_event Toggle (after_event Toggle self) in
  can_edit self2 = can_edit self /\
  text (EditButton self2) = text (EditButton self) /\
  fg_color (EditButton self2) = fg_color (EditButton self) /\
  hover_color (EditButton self2) = hover_color (EditButton self).
Proof.
  intros K R self2.
  assert (R2 : reachable theme winfo run_callback cfg self2)
    by (do 2 apply reachable_step; exact R).
  pose proof (button_inv_reachable cfg self K R) as (_ & _ & Hdc & Hec & hd & Hhd & Hb).
  pose proof (button_inv_reachable cfg self2 K R2) as (_ & _ & _ & _ & hd2 & Hhd2 & Hb2).
  assert (Hce : can_edit self2 = can_edit self).
  { subst self2. cbn [step].
    set (self1 := fst (toggle self)).
    assert (H1 : can_edit self1 = negb (can_edit self)).
    { subst self1. destruct (can_edit self) eqn:Hce.
      - rewrite (toggle_from_enabled self Hce), Hdc, Hhd.
        pose proof (call_if_present_keeps _ (keeps_compose toggle_fields (fun t => fst (fst (fst t))) K)
                      (on_disable_edit_command self) (disabled_state hd self)) as E.
        exact E.
      - rewrite (toggle_from_disabled self Hce).
        destruct (hover_of (edit_enabled_color self)) as [he|e]; [|reflexivity].
        pose proof (call_if_present_keeps _ (keeps_compose toggle_fields (fun t => fst (fst (fst t))) K)
                      (on_enable_edit_command self) (enabled_state he self)) as E.
        exact E. }
    pose proof (button_inv_reachable cfg self1 K (reachable_step _ _ _ _ _ _ Toggle R))
      as (_ & _ & Hdc1 & Hec1 & hd1 & Hhd1 & _).
    destruct (can_edit self1) eqn:Hce1.
    - rewrite (toggle_from_enabled self1 Hce1), Hdc1, Hhd1.
      pose proof (call_if_present_keeps _ (keeps_compose toggle_fields (fun t => fst (fst (fst t))) K)
                    (on_disable_edit_command self1) (disabled_state hd1 self1)) as E.
      cbn in E. rewrite E. now destruct (can_edit self).
    - rewrite (toggle_from_disabled self1 Hce1).
      destruct (hover_of (edit_enabled_color self1)) as [he|e].
      + pose proof (call_if_present_keeps _ (keeps_compose toggle_fields (fun t => fst (fst (fst t))) K)
                    (on_enable_edit_command self1) (enabled_state he self1)) as E.
        cbn in E. rewrite E. now destruct (can_edit self).
      + cbn. now destruct (can_edit self). }
  assert (Hbt : EditButton self2 = EditButton self).
  { rewrite Hb, Hb2, Hce. rewrite Hhd in Hhd2. injection Hhd2 as ->. reflexivity. }
  rewrite Hbt. auto.
Qed.


(** C10: a toggle does not change the text held by the entry's string
    variable, provided the callbacks do not write it. This holds in every
    state of the widget, reachable or not, and also when the toggle
    raises. *)
Theorem toggle_keeps_text (self : widget callback) :
  keeps run_callback entry_var ->
  entry_var (fst (toggle self)) = entry_var self.
Proof.
  intros K. destruct (can_edit self) eqn:Hce.
  - rewrite (toggle_from_enabled self Hce).
    destruct (hover_of (edit_disabled_color self)) as [h|e]; [|reflexivity].
    now rewrite (call_if_present_keeps entry_var K).
  - rewrite (toggle_from_disabled self Hce).
    destruct (hover_of (edit_enabled_color self)) as [h|e]; [|reflexivity].
    now rewrite (call_if_present_keeps entry_var K).
Qed.

(** C7: whatever the configuration, the widget the constructor returns
    has the edit flag off, the text box read-only and the button showing
    the disabled label and the disabled color: it is in the state
    DISABLED. *)
Theorem init_is_disabled (cfg : config callback) (self : widget callback) :
  __init__ theme winfo cfg = Ok self ->
  can_edit self = false /\
  state (Entry self) = disabled /\
  text (EditButton self) = cfg_edit_disabled_text cfg /\
  fg_color (EditButton self) = cfg_edit_disabled_color cfg /\
  DISABLED theme winfo cfg self.
Proof.
  unfold __init__, DISABLED.
  destruct (hover_of (cfg_edit_disabled_color cfg)) as [hd|e] eqn:Hd; cbn;
    [|discriminate].
  intros [= <-]. cbn. repeat split; reflexivity || assumption.
Qed.

(** The constructor returns exactly when the hover color of the disabled
    color can be computed. *)
Lemma init_returns_iff (cfg : config callback) :
  returns (__init__ theme winfo cfg) = returns (hover_of (cfg_edit_disabled_color cfg)).
Proof.
  unfold __init__. now destruct (hover_of (cfg_edit_disabled_color cfg)).
Qed.

(** The text box follows the edit flag. *)
Lemma entry_inv_reachable (cfg : config callback) (self : widget callback) :
  keeps run_callback machine_fields ->
  reachable theme winfo run_callback cfg self ->
  state (Entry self) = if can_edit self then normal else disabled.
Proof.
  intros K R. induction R as [self H|self e R IH].
  - unfold __init__ in H.
    destruct (hover_of (cfg_edit_disabled_color cfg)); cbn in H; [|discriminate].
    now injection H as <-.
  - destruct e as [|s]; cbn [step].
    + pose proof (fun cb w => call_if_present_keeps machine_fields K cb w) as E.
      unfold machine_fields, toggle_fields in E.
      destruct (can_edit self) eqn:Hce.
      * rewrite (toggle_from_enabled self Hce).
        destruct (hover_of (edit_disabled_color self)) as [h|x]; [|reflexivity].
        specialize (E (on_disable_edit_command self) (disabled_state h self)).
        cbn in E. injection E as -> _ _ _ _ _ ->. reflexivity.
      * rewrite (toggle_from_disabled self Hce).
        destruct (hover_of (edit_enabled_color self)) as [h|x]; [|reflexivity].
        specialize (E (on_enable_edit_command self) (enabled_state h self)).
        cbn in E. injection E as -> _ _ _ _ _ ->. reflexivity.
    + pose proof (write_fields s self) as E. unfold machine_fields, toggle_fields in E.
      injection E as -> _ _ _ _ _ ->. exact IH.
Qed.

(** C6, amended: when the hover color of the enabled color can be
    computed and the callbacks leave the edit flag, the text box's state,
    the button and the configured labels and colors as they find them,
    every reachable state is DISABLED or ENABLED, and a toggle does this:
    with the edit flag off it sets the flag, makes the text box writable,
    gives the button the enabled color and label, focuses the text box and
    selects all of its text, and then calls the on-enable callback if and
    only if the attribute holds an object that is true; with the edit flag
    on it clears the flag, makes the text box read-only, gives the button
    the disabled color and label, and then calls the on-disable callback if
    and only if the attribute holds an object that is true. *)
Theorem toggle_two_state_machine (cfg : config callback) (self : widget callback) (he : string) :
  keeps run_callback machine_fields ->
  hover_of (cfg_edit_enabled_color cfg) = Ok he ->
  reachable theme winfo run_callback cfg self ->
  (DISABLED theme winfo cfg self \/ ENABLED theme winfo cfg self) /\
  (can_edit self = false ->
     toggle self =
       match on_enable_edit_command self with
       | Some c =>
           if truth c then run_callback (action c) (enabled_state he self)
           else (enabled_state he self, Ok tt)
       | None => (enabled_state he self, Ok tt)
       end) /\
  (can_edit self = true ->
     exists hd, hover_of (cfg_edit_disabled_color cfg) = Ok hd /\
     toggle self =
       match on_disable_edit_command self with
       | Some c =>
           if truth c then run_callback (action c) (disabled_state hd self)
           else (disabled_state hd self, Ok tt)
       | None => (disabled_state hd self, Ok tt)
       end).
Proof.
  intros K Hhe R.
  assert (K' : keeps run_callback toggle_fields)
    by exact (keeps_compose machine_fields fst K).
  pose proof (button_inv_reachable cfg self K' R) as (_ & _ & Hdc & Hec & hd & Hhd & Hb).
  pose proof (entry_inv_reachable cfg self K R) as Hst.
  rewrite Hhe in Hb. split; [|split].
  - destruct (can_edit self) eqn:Hce; [right|left];
      unfold ENABLED, DISABLED; rewrite Hce, Hst, Hb; cbn; auto.
  - intros Hce. rewrite (toggle_from_disabled self Hce), Hec, Hhe.
    now destruct (on_enable_edit_command self) as [[[] c]|].
  - intros Hce. exists hd. split; [exact Hhd|].
    rewrite (toggle_from_enabled self Hce), Hdc, Hhd.
    now destruct (on_disable_edit_command self) as [[[] c]|].
Qed.

Lemma substring_length_le (n : nat) (s : string) :
  (String.length (substring 0 n s) <= n)%nat.
Proof.
  revert s. induction n as [|n IH]; intros [|c s]; cbn; try lia.
  specialize (IH s). lia.
Qed.

Lemma write_traced (m : Z) (s : string) (self : widget callback) :
  entry_var_trace self = true -> max_characters self = Some m ->
  entry_var (fst (write s self)) =
    if Z.of_nat (String.length s) >=? m then prefix m s else s.
Proof.
  destruct self as [ce dt et dc ec ond one mx ev tr wh en bt]. cbn.
  intros -> ->. cbv -[prefix Z.geb String.length Z.of_nat].
  destruct (_ >=? _); reflexivity.
Qed.

Lemma write_keeps_limit (s : string) (self : widget callback) :
  entry_var_trace (fst (write s self)) = entry_var_trace self /\
  max_characters (fst (write s self)) = max_characters self.
Proof.
  destruct self as [ce dt et dc ec ond one mx ev tr wh en bt].
  cbv -[prefix Z.geb String.length Z.of_nat].
  destruct tr; [|auto]. destruct mx as [m|]; [|auto].
  destruct (_ >=? _); auto.
Qed.

(** C2: for a positive maximum [m] given to the constructor, after any
    run of text mutations, each followed by the write trace, the stored
    text has at most [m] characters; and a mutation to a text of [m]
    characters or more stores the first [m] characters of it. *)
Theorem text_never_exceeds_maximum (cfg : config callback) (m : Z) (self : widget callback)
    (texts : list string) :
  cfg_max_characters cfg = Some m -> 0 < m ->
  __init__ theme winfo cfg = Ok self ->
  let after := run theme winfo run_callback (writes texts) self in
  Z.of_nat (String.length (entry_var after)) <= m /\
  forall s, m <= Z.of_nat (String.length s) ->
    entry_var (after_event (Write s) after) = substring 0 (Z.to_nat m) s.
Proof.
  intros Hm Hpos Hinit after.
  assert (H0 : entry_var_trace self = true /\ max_characters self = Some m /\
               Z.of_nat (String.length (entry_var self)) <= m).
  { unfold __init__ in Hinit.
    destruct (hover_of (cfg_edit_disabled_color cfg)); cbn in Hinit; [|discriminate].
    injection Hinit as <-. cbn. rewrite Hm. repeat split. lia. }
  assert (H : entry_var_trace after = true /\ max_characters after = Some m /\
              Z.of_nat (String.length (entry_var after)) <= m).
  { subst after. clear Hinit. revert self H0.
    induction texts as [|t texts IH]; intros self H0; [exact H0|].
    cbn. apply IH.
    destruct H0 as (Ht & Hmx & Hlen).
    destruct (write_keeps_limit t self) as [-> ->].
    repeat split; try assumption.
    rewrite (write_traced m t self Ht Hmx).
    destruct (_ >=? _) eqn:E; [|lia].
    unfold prefix. replace (0 <=? m) with true by lia.
    pose proof (substring_length_le (Z.to_nat m) t). lia. }
  destruct H as (Ht & Hmx & Hlen). split; [exact Hlen|].
  intros s Hs. cbn [step]. rewrite (write_traced m s after Ht Hmx).
  replace (_ >=? _) with true by lia.
  unfold prefix. now replace (0 <=? m) with true by lia.
Qed.

End WidgetFacts.
(** ** The theorems on the concrete toolkit *)

Example themed_color_is_resolved :
  get_hover_color table_theme tk_rgb "primary" = Ok "#3278b0".
Proof. vm_compute. reflexivity. Qed.

Example demo_widget_is_constructed :
  __init__ stock_theme tk_rgb demo_config = Ok demo_widget.
Proof. vm_compute. reflexivity. Qed.

Lemma hover_color_of_hex_code_witness :
  theme_lookup stock_theme "#808080" = None /\
  Spec.is_hex_color "#808080" = true /\
  theme_lookup stock_theme "#FFFFFF" = None /\
  Spec.is_hex_color "#FFFFFF" = true /\
  _get_hover_color stock_theme tk_rgb "#808080" demo_widget
    = (demo_widget, Ok "#6c6c6c") /\
  _get_hover_color stock_theme tk_rgb "#FFFFFF" demo_widget
    = (demo_widget, Ok "#d8d8d8").
Proof.
  do 4 (split; [reflexivity|]). split.
  - apply (hover_color_of_hex_code stock_theme tk_rgb unit "#808080" demo_widget);
      reflexivity.
  - apply (hover_color_of_hex_code stock_theme tk_rgb unit "#FFFFFF" demo_widget);
      reflexivity.
Defined.

Lemma unknown_name_raises_witness :
  theme_entry stock_theme "notacolor" = None /\
  startswith_hash "notacolor" = false /\
  tk_rgb "notacolor" = None /\
  exists msg,
    _get_hover_color stock_theme tk_rgb "notacolor" demo_widget
      = (demo_widget, Raise (ValueError msg)).
Proof.
  split; [reflexivity|]. split; [reflexivity|]. split; [reflexivity|].
  apply (unknown_name_raises stock_theme tk_rgb unit "notacolor" demo_widget);
    reflexivity.
Defined.

Lemma init_is_disabled_witness :
  __init__ stock_theme tk_rgb demo_config = Ok demo_widget /\
  (can_edit demo_widget = false /\
   state (Entry demo_widget) = disabled /\
   text (EditButton demo_widget) = cfg_edit_disabled_text demo_config /\
   fg_color (EditButton demo_widget) = cfg_edit_disabled_color demo_config /\
   DISABLED stock_theme tk_rgb demo_config demo_widget).
Proof.
  split; [vm_compute; reflexivity|].
  apply (init_is_disabled stock_theme tk_rgb unit demo_config demo_widget).
  vm_compute; reflexivity.
Defined.

Lemma text_never_exceeds_maximum_witness :
  cfg_max_characters demo_config = Some 8 /\
  0 < 8 /\
  __init__ stock_theme tk_rgb demo_config = Ok demo_widget /\
  (let after :=
     run stock_theme tk_rgb idle (writes ["hello"; "hello, world"]) demo_widget in
   Z.of_nat (String.length (entry_var after)) <= 8 /\
   forall s, 8 <= Z.of_nat (String.length s) ->
     entry_var (step stock_theme tk_rgb idle (Write s) after)
       = substring 0 (Z.to_nat 8) s).
Proof.
  split; [reflexivity|]. split; [lia|]. split; [vm_compute; reflexivity|].
  apply (text_never_exceeds_maximum stock_theme tk_rgb unit idle demo_config 8
           demo_widget ["hello"; "hello, world"]).
  - reflexivity.
  - lia.
  - vm_compute; reflexivity.
Defined.

Lemma toggle_keeps_text_witness :
  keeps idle entry_var /\
  entry_var (fst (toggle_edit_mode stock_theme tk_rgb idle demo_widget))
    = entry_var demo_widget.
Proof.
  split; [intros c self; reflexivity|].
  apply (toggle_keeps_text stock_theme tk_rgb unit idle demo_widget).
  intros c self; reflexivity.
Defined.

Lemma toggle_twice_restores_witness :
  keeps idle toggle_fields /\
  reachable stock_theme tk_rgb idle demo_config demo_widget /\
  (let self2 :=
     step stock_theme tk_rgb idle Toggle
       (step stock_theme tk_rgb idle Toggle demo_widget) in
   can_edit self2 = can_edit demo_widget /\
   text (EditButton self2) = text (EditButton demo_widget) /\
   fg_color (EditButton self2) = fg_color (EditButton demo_widget) /\
   hover_color (EditButton self2) = hover_color (EditButton demo_widget)).
Proof.
  split; [intros c self; reflexivity|].
  split; [apply reachable_init; vm_compute; reflexivity|].
  apply (toggle_twice_restores stock_theme tk_rgb unit idle demo_config demo_widget).
  - intros c self; reflexivity.
  - apply reachable_init; vm_compute; reflexivity.
Defined.

Lemma toggle_two_state_machine_witness :
  keeps idle machine_fields /\
  get_hover_color stock_theme tk_rgb (cfg_edit_enabled_color hooked_config)
    = Ok "#006c00" /\
  reachable stock_theme tk_rgb idle hooked_config hooked_widget /\
  reachable stock_theme tk_rgb idle hooked_config hooked_widget_editing /\
  DISABLED stock_theme tk_rgb hooked_config hooked_widget /\
  ENABLED stock_theme tk_rgb hooked_config hooked_widget_editing /\
  toggle_edit_mode stock_theme tk_rgb idle hooked_widget
    = idle tt (enabled_state "#006c00" hooked_widget) /\
  toggle_edit_mode stock_theme tk_rgb idle hooked_widget_editing
    = idle tt (disabled_state "#d80000" hooked_widget_editing).
Proof.
  assert (K : keeps idle machine_fields) by (intros c self; reflexivity).
  assert (Hhe : get_hover_color stock_theme tk_rgb (cfg_edit_enabled_color hooked_config)
                = Ok "#006c00") by (vm_compute; reflexivity).
  assert (R0 : reachable stock_theme tk_rgb idle hooked_config hooked_widget)
    by (apply reachable_init; vm_compute; reflexivity).
  assert (R1 : reachable stock_theme tk_rgb idle hooked_config hooked_widget_editing)
    by exact (reachable_step stock_theme tk_rgb unit idle hooked_config
                hooked_widget Toggle R0).
  destruct (toggle_two_state_machine stock_theme tk_rgb unit idle hooked_config
              hooked_widget "#006c00" K Hhe R0) as (S0 & T0 & _).
  destruct (toggle_two_state_machine stock_theme tk_rgb unit idle hooked_config
              hooked_widget_editing "#006c00" K Hhe R1) as (S1 & _ & T1).
  do 4 (split; [assumption|]).
  split; [destruct S0 as [S0|(S0 & _)]; [exact S0|discriminate S0]|].
  split; [destruct S1 as [(S1 & _)|S1]; [discriminate S1|exact S1]|].
  split; [exact (T0 eq_refl)|].
  destruct (T1 eq_refl) as (hd & Hhd & T). vm_compute in Hhd.
  injection Hhd as <-. exact T.
Defined.

(** C3 fails on the code: [#+f+f+f] starts with [#], has length 7 and is
    no [#] followed by six hexadecimal digits, yet [_get_hover_color]
    returns [#0c0c0c] for it instead of raising, because [int] reads a
    signed digit as a number. *)
Theorem signed_channels_are_accepted :
  theme_lookup stock_theme "#+f+f+f" = None /\
  startswith_hash "#+f+f+f" = true /\
  Spec.is_hex_color "#+f+f+f" = false /\
  int16 "+f" = Some 15 /\
  _get_hover_color stock_theme tk_rgb "#+f+f+f" demo_widget
    = (demo_widget, Ok "#0c0c0c").
Proof. repeat split; vm_compute; reflexivity. Qed.

(** C9 fails on the code: [#-f-f-f] is no [#] followed by six hexadecimal
    digits, yet it is answered, because [int] reads a signed digit as a
    number: each channel is read as -15 and the result is [#000000], whose
    channels, 0, are above the channels read from the input. *)
Theorem negative_channel_is_clamped :
  Spec.is_hex_color "#-f-f-f" = false /\
  int16 "-f" = Some (-15) /\
  resolve_rgb tk_rgb (color_code_of stock_theme "#-f-f-f") = Ok (-15, -15, -15) /\
  _get_hover_color stock_theme tk_rgb "#-f-f-f" demo_widget
    = (demo_widget, Ok "#000000") /\
  "#000000" = Spec.encode 0 0 0 /\
  ~ (0 <= -15).
Proof. repeat split; try (vm_compute; reflexivity). lia. Qed.

Lemma hover_color_shape_witness :
  rgb16 tk_rgb /\
  snd (_get_hover_color stock_theme tk_rgb "red" demo_widget) = Ok "#d80000" /\
  exists r g b,
    resolve_rgb tk_rgb (color_code_of stock_theme "red") = Ok (r, g, b) /\
    "#d80000" = Spec.encode (Spec.darken r) (Spec.darken g) (Spec.darken b) /\
    String.length "#d80000" = 7%nat /\
    startswith_hash "#d80000" = true /\
    forallb Spec.is_lower_hexdigit (skipn 1 (list_ascii_of_string "#d80000")) = true /\
    (0 <= Spec.darken r <= 216 /\ 0 <= Spec.darken g <= 216 /\ 0 <= Spec.darken b <= 216) /\
    (Spec.darken r <= Z.max 0 r /\ Spec.darken g <= Z.max 0 g /\ Spec.darken b <= Z.max 0 b).
Proof.
  assert (Hw : rgb16 tk_rgb).
  { intros name vr vg vb. unfold tk_rgb.
    destruct (String.eqb name "red"); [intros [= <- <- <-]; lia|].
    destruct (String.eqb name "green"); [intros [= <- <- <-]; lia|].
    discriminate. }
  split; [exact Hw|]. split; [vm_compute; reflexivity|].
  apply (hover_color_shape stock_theme tk_rgb unit "red" "#d80000" demo_widget Hw).
  vm_compute; reflexivity.
Defined.

(** C5 as stated fails: with a callback on leaving edit mode that writes
    its own label on the button, two toggles from the initial state leave
    the label [X] where it was [A]. *)
Lemma relabelling_callback_defeats_toggle_twice :
  exists self,
    __init__ stock_theme tk_rgb callback_config = Ok self /\
    reachable stock_theme tk_rgb relabel callback_config self /\
    text (EditButton self) = "A" /\
    text (EditButton (step stock_theme tk_rgb relabel Toggle
                        (step stock_theme tk_rgb relabel Toggle self))) = "X".
Proof.
  eexists. split; [vm_compute; reflexivity|].
  split; [apply reachable_init; vm_compute; reflexivity|].
  split; vm_compute; reflexivity.
Qed.

(** C6 as stated fails. With the enabled color [#0f0], a toggle from the
    initial state sets the flag and makes the text box writable, then
    raises [ValueError] before it touches the button: the flag is on under
    the disabled label, which is neither state of the machine. With a
    callback that writes its own label on the button, two toggles reach a
    state that is neither. And a callback that is present but an object
    whose truth value is false is not called: the toggle ends before the
    call, the button keeps the enabled label [M] that the callback would
    have replaced by [X]. *)
Lemma toggle_leaves_the_two_states :
  (exists self,
     __init__ stock_theme tk_rgb short_code_config = Ok self /\
     let r := toggle_edit_mode stock_theme tk_rgb idle self in
     is_ValueError (snd r) = true /\
     can_edit (fst r) = true /\
     state (Entry (fst r)) = normal /\
     text (EditButton (fst r)) = "A" /\
     fg_color (EditButton (fst r)) = "red" /\
     ~ DISABLED stock_theme tk_rgb short_code_config (fst r) /\
     ~ ENABLED stock_theme tk_rgb short_code_config (fst r)) /\
  (exists self,
     __init__ stock_theme tk_rgb callback_config = Ok self /\
     let self2 := step stock_theme tk_rgb relabel Toggle
                    (step stock_theme tk_rgb relabel Toggle self) in
     ~ DISABLED stock_theme tk_rgb callback_config self2 /\
     ~ ENABLED stock_theme tk_rgb callback_config self2) /\
  (exists self,
     __init__ stock_theme tk_rgb false_hook_config = Ok self /\
     on_enable_edit_command self = Some {| truth := false; action := tt |} /\
     toggle_edit_mode stock_theme tk_rgb relabel self
       = (enabled_state "#006c00" self, Ok tt) /\
     text (EditButton (enabled_state "#006c00" self)) = "M" /\
     text (EditButton (fst (relabel tt (enabled_state "#006c00" self)))) = "X").
Proof.
  split; [|split].
  - eexists. split; [vm_compute; reflexivity|].
    repeat split; try (vm_compute; reflexivity).
    + intros (H & _). vm_compute in H. discriminate.
    + intros (_ & _ & _ & H & _). vm_compute in H. discriminate.
  - eexists. split; [vm_compute; reflexivity|].
    split.
    + intros (_ & _ & _ & H & _). vm_compute in H. discriminate.
    + intros (H & _). vm_compute in H. discriminate.
  - eexists. split; [vm_compute; reflexivity|].
    repeat split; vm_compute; reflexivity.
Qed.

(** * Further properties *)

(** ** Of the hover color *)

Lemma hexdigit_lower (c : ascii) :
  Spec.is_hexdigit c = true ->
  Spec.is_hexdigit (ascii_lower c) = true /\
  Spec.hexval (ascii_lower c) = Spec.hexval c.
Proof.
  intros H.
  pose proof (forall_ascii
    (fun a => implb (Spec.is_hexdigit a)
       (Spec.is_hexdigit (ascii_lower a)
        && (Spec.hexval (ascii_lower a) =? Spec.hexval a)))) as E.
  specialize (E ltac:(vm_compute; reflexivity) c). cbv beta in E.
  rewrite H in E. cbn [implb] in E. apply andb_prop in E as [E1 E2]. split; [exact E1|lia].
Qed.

Lemma lower_hexdigit_is_hexdigit (c : ascii) :
  Spec.is_lower_hexdigit c = true -> Spec.is_hexdigit c = true.
Proof.
  unfold Spec.is_lower_hexdigit, Spec.is_hexdigit. intros ->. reflexivity.
Qed.

(** [int] takes exactly the accepted pairs. *)
Lemma int16_accepted_pair (c1 c2 : ascii) :
  bool_decide (is_Some (int16 (two c1 c2))) = accepted_pair c1 c2.
Proof.
  pose proof (forall_ascii2
    (fun a b => Bool.eqb (match int16 (two a b) with Some _ => true | None => false end)
                  (accepted_pair a b))) as E.
  specialize (E ltac:(vm_compute; reflexivity) c1 c2). cbv beta in E.
  apply Bool.eqb_prop in E. rewrite <- E.
  destruct (int16 (two c1 c2)); [apply bool_decide_eq_true_2; eauto|].
  apply bool_decide_eq_false_2. intros [x Hx]. discriminate.
Qed.

(** The encoding of three channels is a color code. *)
Lemma encode_is_hex_color (r g b : Z) :
  0 <= r <= 255 -> 0 <= g <= 255 -> 0 <= b <= 255 ->
  Spec.is_hex_color (Spec.encode r g b) = true.
Proof.
  intros Hr Hg Hb.
  destruct (format_02x_spec r Hr) as (Fr & _ & Lr).
  destruct (format_02x_spec g Hg) as (Fg & _ & Lg).
  destruct (format_02x_spec b Hb) as (Fb & _ & Lb).
  rewrite Fr in Lr. rewrite Fg in Lg. rewrite Fb in Lb.
  unfold Spec.two_hex in Lr, Lg, Lb. cbn in Lr, Lg, Lb.
  rewrite andb_true_r in Lr, Lg, Lb.
  apply andb_prop in Lr as [Lr1 Lr2], Lg as [Lg1 Lg2], Lb as [Lb1 Lb2].
  apply lower_hexdigit_is_hexdigit in Lr1, Lr2, Lg1, Lg2, Lb1, Lb2.
  unfold Spec.is_hex_color, Spec.encode, Spec.two_hex.
  cbv [String.append]. cbn [list_ascii_of_string forallb].
  change (Ascii.eqb "#" "#") with true.
  now rewrite Lr1, Lr2, Lg1, Lg2, Lb1, Lb2.
Qed.

Lemma darken_strict (r : Z) :
  -15 <= r <= 255 ->
  (0 < r -> Spec.darken r < r) /\ (r <= 0 -> Spec.darken r = 0).
Proof.
  unfold Spec.darken. intros Hr.
  pose proof (Z_div_mod_eq_full (85 * r) 100) as Hd.
  pose proof (Z.mod_pos_bound (85 * r) 100 ltac:(lia)) as Hm.
  lia.
Qed.

Section MoreHoverFacts.
Variable theme : option (gmap string pyval).
Variable winfo : string -> option (Z * Z * Z).
Variable callback : Type.

Abbreviation hover_of := (get_hover_color theme winfo).

(** The value for a [#] and six hexadecimal digits. *)
Lemma get_hover_color_hex (s : string) :
  theme_lookup theme s = None ->
  Spec.is_hex_color s = true ->
  hover_of s = Ok (Spec.hover s).
Proof.
  intros Hth Hs.
  destruct (hex_color_inv s Hs)
    as (r1 & r2 & g1 & g2 & b1 & b2 & -> & Hr1 & Hr2 & Hg1 & Hg2 & Hb1 & Hb2).
  destruct (int16_hex_pair r1 r2 Hr1 Hr2) as [Er Br].
  destruct (int16_hex_pair g1 g2 Hg1 Hg2) as [Eg Bg].
  destruct (int16_hex_pair b1 b2 Hb1 Hb2) as [Eb Bb].
  unfold get_hover_color, color_code_of. rewrite Hth.
  rewrite resolve_hex_color, Er, Eg, Eb. cbn [mbind result_bind].
  rewrite darken_rgb_spec by lia. reflexivity.
Qed.

(** Every exception of [resolve_rgb] is a [ValueError]. *)
Lemma resolve_rgb_raises (c : string) (e : exn) :
  resolve_rgb winfo c = Raise e -> exists msg, e = ValueError msg.
Proof.
  unfold resolve_rgb. destruct (startswith_hash c); cbn [negb].
  - destruct (String.length c =? 7)%nat; cbn [negb]; [|intros [= <-]; eauto].
    destruct (int16 (slice 1 3 c)), (int16 (slice 3 5 c)), (int16 (slice 5 7 c));
      intros [= <-]; eauto.
  - destruct (winfo c) as [[[vr vg] vb]|]; [|intros [= <-]; unfold unknown_name; eauto].
    unfold reraise.
    destruct (_ ≫= _); intros [= <-]; unfold unknown_name; eauto.
Qed.

(** X1: a color name the theme does not resolve and the toolkit knows, with
    16-bit channels: each channel is the high byte of the toolkit's value,
    times 0.85, floored. *)
Theorem named_color_hover (name : string) (vr vg vb : Z) (self : widget callback) :
  theme_lookup theme name = None ->
  startswith_hash name = false ->
  winfo name = Some (vr, vg, vb) ->
  0 <= vr <= 65535 -> 0 <= vg <= 65535 -> 0 <= vb <= 65535 ->
  _get_hover_color theme winfo name self =
    (self, Ok (Spec.encode (Spec.darken (vr / 256)) (Spec.darken (vg / 256))
                 (Spec.darken (vb / 256)))).
Proof.
  intros Hth Hh Hw Hr Hg Hb.
  unfold _get_hover_color, get_hover_color, color_code_of, resolve_rgb.
  rewrite Hth, Hh, Hw. cbn [negb].
  rewrite !channel_of_rgb16_spec by assumption. cbn [mbind result_bind reraise].
  pose proof (Z.div_pos vr 256). pose proof (Z.div_lt_upper_bound vr 256 256).
  pose proof (Z.div_pos vg 256). pose proof (Z.div_lt_upper_bound vg 256 256).
  pose proof (Z.div_pos vb 256). pose proof (Z.div_lt_upper_bound vb 256 256).
  rewrite darken_rgb_spec by lia. reflexivity.
Qed.

(** X2: the case of the hexadecimal digits does not matter. *)
Theorem hex_case_does_not_matter (s : string) (self : widget callback) :
  theme_lookup theme s = None ->
  theme_lookup theme (lower_string s) = None ->
  Spec.is_hex_color s = true ->
  _get_hover_color theme winfo (lower_string s) self = _get_hover_color theme winfo s self.
Proof.
  intros Hth Hth' Hs. unfold _get_hover_color. f_equal.
  rewrite (get_hover_color_hex s Hth Hs).
  destruct (hex_color_inv s Hs)
    as (r1 & r2 & g1 & g2 & b1 & b2 & -> & Hr1 & Hr2 & Hg1 & Hg2 & Hb1 & Hb2).
  destruct (hexdigit_lower r1 Hr1) as [Lr1 Vr1], (hexdigit_lower r2 Hr2) as [Lr2 Vr2],
    (hexdigit_lower g1 Hg1) as [Lg1 Vg1], (hexdigit_lower g2 Hg2) as [Lg2 Vg2],
    (hexdigit_lower b1 Hb1) as [Lb1 Vb1], (hexdigit_lower b2 Hb2) as [Lb2 Vb2].
  assert (Hc : Spec.is_hex_color
                 (lower_string (String "#" (two r1 r2 ++ two g1 g2 ++ two b1 b2))) = true).
  { change (Ascii.eqb "#" "#"
            && forallb Spec.is_hexdigit
                 [ascii_lower r1; ascii_lower r2; ascii_lower g1; ascii_lower g2;
                  ascii_lower b1; ascii_lower b2] = true).
    cbn [forallb]. now rewrite Lr1, Lr2, Lg1, Lg2, Lb1, Lb2. }
  rewrite (get_hover_color_hex _ Hth' Hc). f_equal.
  change (Spec.encode
            (Spec.darken (Spec.channel (ascii_lower r1) (ascii_lower r2)))
            (Spec.darken (Spec.channel (ascii_lower g1) (ascii_lower g2)))
            (Spec.darken (Spec.channel (ascii_lower b1) (ascii_lower b2)))
          = Spec.encode (Spec.darken (Spec.channel r1 r2))
              (Spec.darken (Spec.channel g1 g2)) (Spec.darken (Spec.channel b1 b2))).
  unfold Spec.channel. now rewrite Vr1, Vr2, Vg1, Vg2, Vb1, Vb2.
Qed.

(** X3: a code with a leading [#], made of characters below code point
    256 (the strings of this development), that the theme does not resolve
    is answered exactly when it has 7 characters and its three pairs are
    accepted pairs; otherwise the call raises [ValueError]. *)
Theorem hash_code_outcome (s : string) (self : widget callback) :
  theme_lookup theme s = None ->
  startswith_hash s = true ->
  returns (snd (_get_hover_color theme winfo s self)) = accepted_code s /\
  (accepted_code s = false ->
   is_ValueError (snd (_get_hover_color theme winfo s self)) = true).
Proof.
  intros Hth Hh. cbn [snd _get_hover_color].
  destruct (Nat.eq_dec (String.length s) 7%nat) as [Hlen|Hlen].
  - destruct s as [|h [|r1 [|r2 [|g1 [|g2 [|b1 [|b2 [|x s]]]]]]]]; try discriminate.
    cbn in Hh. apply Ascii.eqb_eq in Hh as ->.
    unfold get_hover_color, color_code_of, accepted_code. rewrite Hth.
    change (String "#" _) with (String "#" (two r1 r2 ++ two g1 g2 ++ two b1 b2)).
    rewrite resolve_hex_color.
    change (match list_ascii_of_string (String "#" (two r1 r2 ++ two g1 g2 ++ two b1 b2)) with
            | [h; x1; x2; y1; y2; z1; z2] =>
                Ascii.eqb h "#" && accepted_pair x1 x2 && accepted_pair y1 y2
                && accepted_pair z1 z2
            | _ => false
            end)
      with (accepted_pair r1 r2 && accepted_pair g1 g2 && accepted_pair b1 b2).
    rewrite <- (int16_accepted_pair r1 r2), <- (int16_accepted_pair g1 g2),
      <- (int16_accepted_pair b1 b2).
    destruct (int16 (two r1 r2)) as [r|] eqn:Er;
      destruct (int16 (two g1 g2)) as [g|] eqn:Eg;
      destruct (int16 (two b1 b2)) as [b|] eqn:Eb;
      cbn [mbind result_bind returns is_ValueError];
      rewrite ?(bool_decide_eq_true_2 (is_Some (Some _))) by eauto;
      rewrite ?(bool_decide_eq_false_2 (is_Some None)) by (intros [? ?]; discriminate);
      cbn [andb]; try (split; [reflexivity|reflexivity || discriminate]).
    apply int16_pair_bounds in Er, Eg, Eb.
    rewrite darken_rgb_spec by assumption. split; [reflexivity|discriminate].
  - assert (Hacc : accepted_code s = false).
    { unfold accepted_code.
      destruct s as [|h [|r1 [|r2 [|g1 [|g2 [|b1 [|b2 [|x s]]]]]]]]; try reflexivity.
      now contradict Hlen. }
    rewrite Hacc.
    assert (H : is_ValueError (hover_of s) = true).
    { apply malformed_code_raises; auto. }
    split; [|intros _; exact H].
    destruct (hover_of s) as [|[]]; cbn in H |- *; congruence.
Qed.

(** X4: with the toolkit's 16-bit colors, a call returns or raises
    [ValueError]; no other exception leaves it. *)
Theorem only_ValueError (s : string) (self : widget callback) :
  rgb16 winfo ->
  ok_or_ValueError (snd (_get_hover_color theme winfo s self)) = true.
Proof.
  intros Hw. cbn [snd _get_hover_color]. unfold ok_or_ValueError, get_hover_color.
  destruct (resolve_rgb winfo (color_code_of theme s)) as [[[r g] b]|e] eqn:E.
  - destruct (resolve_rgb_bounds _ _ r g b Hw E) as (Hr & Hg & Hb).
    cbn [mbind result_bind]. now rewrite darken_rgb_spec.
  - destruct (resolve_rgb_raises _ _ E) as [msg ->]. reflexivity.
Qed.

(** X5: for a color the theme resolves, or a code with a leading [#], the
    toolkit is not asked: the outcome is the same with any toolkit. *)
Theorem toolkit_is_not_asked (winfo' : string -> option (Z * Z * Z))
    (s : string) (self : widget callback) :
  is_Some (theme_lookup theme s) \/ startswith_hash s = true ->
  _get_hover_color theme winfo s self = _get_hover_color theme winfo' s self.
Proof.
  intros H. unfold _get_hover_color, get_hover_color. do 2 f_equal.
  assert (Hh : startswith_hash (color_code_of theme s) = true).
  { unfold color_code_of. destruct H as [[c Hc]|H].
    - rewrite Hc. unfold theme_lookup in Hc.
      destruct (theme_entry theme s) as [v|]; [|discriminate].
      destruct (match v with PyList l => head l | _ => Some v end) as [[c'| |]|];
        try discriminate.
      destruct (startswith_hash c') eqn:Hc'; [|discriminate]. now injection Hc as <-.
    - destruct (theme_lookup theme s) as [c|] eqn:Hc; [|exact H].
      unfold theme_lookup in Hc.
      destruct (theme_entry theme s) as [v|]; [|discriminate].
      destruct (match v with PyList l => head l | _ => Some v end) as [[c'| |]|];
        try discriminate.
      destruct (startswith_hash c') eqn:Hc'; [|discriminate]. now injection Hc as <-. }
  unfold resolve_rgb. now rewrite Hh.
Qed.

(** X6: a theme entry that is no string with a leading [#] and no list
    that begins with one (an empty list, a number, a name) is passed over,
    like a missing key: the outcome is that of the stock theme. *)
Theorem unusable_theme_entry_is_passed_over (s : string) (self : widget callback) :
  (forall v, theme_entry theme s = Some v -> usable_theme_value v = false) ->
  _get_hover_color theme winfo s self = _get_hover_color None winfo s self.
Proof.
  intros H. unfold _get_hover_color, get_hover_color, color_code_of. do 3 f_equal.
  assert (Hl : theme_lookup theme s = None).
  { unfold theme_lookup. destruct (theme_entry theme s) as [v|]; [|reflexivity].
    specialize (H v eq_refl).
    destruct v as [c|[|[c| |] l]|]; cbn in H |- *; try reflexivity; now rewrite H. }
  now rewrite Hl.
Qed.

(** X7: for a theme entry that is a list, the hover color is that of its
    first element; the rest of the list (the color of the dark mode) and
    the toolkit have no part in it. *)
Theorem theme_list_uses_first (name c : string) (rest : list pyval)
    (self : widget callback) :
  theme_entry theme name = Some (PyList (PyStr c :: rest)) ->
  Spec.is_hex_color c = true ->
  _get_hover_color theme winfo name self = (self, Ok (Spec.hover c)).
Proof.
  intros He Hc.
  destruct (hex_color_inv c Hc)
    as (r1 & r2 & g1 & g2 & b1 & b2 & -> & Hr1 & Hr2 & Hg1 & Hg2 & Hb1 & Hb2).
  destruct (int16_hex_pair r1 r2 Hr1 Hr2) as [Er Br].
  destruct (int16_hex_pair g1 g2 Hg1 Hg2) as [Eg Bg].
  destruct (int16_hex_pair b1 b2 Hb1 Hb2) as [Eb Bb].
  unfold _get_hover_color, get_hover_color, color_code_of, theme_lookup.
  rewrite He. cbn [head startswith_hash]. change (Ascii.eqb "#" "#") with true. cbn iota.
  rewrite resolve_hex_color, Er, Eg, Eb. cbn [mbind result_bind].
  rewrite darken_rgb_spec by lia. reflexivity.
Qed.

(** X8: with the toolkit's 16-bit colors, a result is darker in every
    channel that is not already 0: the channel it encodes is below the
    channel read from the input when that one is positive, and 0
    otherwise. *)
Theorem hover_is_strictly_darker (s out : string) (self : widget callback) :
  rgb16 winfo ->
  snd (_get_hover_color theme winfo s self) = Ok out ->
  exists r g b,
    resolve_rgb winfo (color_code_of theme s) = Ok (r, g, b) /\
    out = Spec.encode (Spec.darken r) (Spec.darken g) (Spec.darken b) /\
    ((0 < r -> Spec.darken r < r) /\ (r <= 0 -> Spec.darken r = 0)) /\
    ((0 < g -> Spec.darken g < g) /\ (g <= 0 -> Spec.darken g = 0)) /\
    ((0 < b -> Spec.darken b < b) /\ (b <= 0 -> Spec.darken b = 0)).
Proof.
  intros Hw H. cbn [snd _get_hover_color] in H. unfold get_hover_color in H.
  destruct (resolve_rgb winfo (color_code_of theme s)) as [[[r g] b]|e] eqn:E;
    [|discriminate].
  destruct (resolve_rgb_bounds _ _ r g b Hw E) as (Hr & Hg & Hb).
  cbn [mbind result_bind] in H. rewrite darken_rgb_spec in H by assumption.
  injection H as <-. exists r, g, b.
  split; [reflexivity|]. split; [reflexivity|].
  auto using darken_strict.
Qed.

(** X9: a result is itself a [#] and six hexadecimal digits, so it can be
    given back to [_get_hover_color], which then returns the next darker
    shade. *)
Theorem hover_of_hover_returns (s out : string) (self : widget callback) :
  rgb16 winfo ->
  snd (_get_hover_color theme winfo s self) = Ok out ->
  theme_lookup theme out = None ->
  Spec.is_hex_color out = true /\
  _get_hover_color theme winfo out self = (self, Ok (Spec.hover out)).
Proof.
  intros Hw H Hth. cbn [snd _get_hover_color] in H. unfold get_hover_color in H.
  destruct (resolve_rgb winfo (color_code_of theme s)) as [[[r g] b]|e] eqn:E;
    [|discriminate].
  destruct (resolve_rgb_bounds _ _ r g b Hw E) as (Hr & Hg & Hb).
  cbn [mbind result_bind] in H. rewrite darken_rgb_spec in H by assumption.
  injection H as <-.
  destruct (darken_range r Hr) as [Hr1 _], (darken_range g Hg) as [Hg1 _],
    (darken_range b Hb) as [Hb1 _].
  assert (Hc : Spec.is_hex_color
                 (Spec.encode (Spec.darken r) (Spec.darken g) (Spec.darken b)) = true)
    by (apply encode_is_hex_color; lia).
  split; [exact Hc|].
  unfold _get_hover_color. now rewrite (get_hover_color_hex _ Hth Hc).
Qed.

End MoreHoverFacts.

(** ** Of the widget *)

Lemma prefix_short (m : Z) (s : string) :
  Z.of_nat (String.length s) <= m -> prefix m s = s.
Proof.
  intros H. unfold prefix. replace (0 <=? m) with true by lia.
  assert (G : forall n t, (String.length t <= n)%nat -> substring 0 n t = t).
  { intros n. induction n as [|n IH]; intros [|c t]; cbn; intros Ht;
      try reflexivity; try lia.
    f_equal. apply IH. lia. }
  apply G. lia.
Qed.

Section MoreWidgetFacts.
Variable theme : option (gmap string pyval).
Variable winfo : string -> option (Z * Z * Z).
Variable callback : Type.
Variable run_callback : callback -> widget callback -> widget callback * result unit.

Abbreviation toggle := (toggle_edit_mode theme winfo run_callback).
Abbreviation hover_of := (get_hover_color theme winfo).
Abbreviation after_event := (step theme winfo run_callback).
Abbreviation after_run := (run theme winfo run_callback).

(** A toggle leaves a view of the widget alone when the callbacks do and
    its own assignments do. *)
Lemma toggle_keeps_view {A} (f : widget callback -> A) (self : widget callback) :
  keeps run_callback f ->
  (forall h, f (enabled_state h self) = f self) ->
  (forall h, f (disabled_state h self) = f self) ->
  f (half_enabled_state self) = f self ->
  f (half_disabled_state self) = f self ->
  f (fst (toggle self)) = f self.
Proof.
  intros K He Hd Hhe Hhd. destruct (can_edit self) eqn:Hce.
  - rewrite (toggle_from_enabled theme winfo callback run_callback self Hce).
    destruct (hover_of (edit_disabled_color self)) as [h|e]; [|exact Hhd].
    now rewrite (call_if_present_keeps callback run_callback f K).
  - rewrite (toggle_from_disabled theme winfo callback run_callback self Hce).
    destruct (hover_of (edit_enabled_color self)) as [h|e]; [|exact Hhe].
    now rewrite (call_if_present_keeps callback run_callback f K).
Qed.

Lemma toggle_limiter_fields (self : widget callback) :
  keeps run_callback limiter_fields ->
  limiter_fields (fst (toggle self)) = limiter_fields self.
Proof. intros K. apply toggle_keeps_view; auto. Qed.

Lemma toggle_flips (self : widget callback) :
  keeps run_callback can_edit ->
  can_edit (fst (toggle self)) = negb (can_edit self).
Proof.
  intros K. destruct (can_edit self) eqn:Hce.
  - rewrite (toggle_from_enabled theme winfo callback run_callback self Hce).
    destruct (hover_of (edit_disabled_color self)) as [h|e]; [|reflexivity].
    now rewrite (call_if_present_keeps callback run_callback can_edit K).
  - rewrite (toggle_from_disabled theme winfo callback run_callback self Hce).
    destruct (hover_of (edit_enabled_color self)) as [h|e]; [|reflexivity].
    now rewrite (call_if_present_keeps callback run_callback can_edit K).
Qed.

(** What a write does, by the trace and the maximum. *)
Lemma write_outcome (s : string) (self : widget callback) :
  write s self =
    if entry_var_trace self then
      match max_characters self with
      | Some m =>
          (set_entry_var (if Z.of_nat (String.length s) >=? m then prefix m s else s) self,
           Ok tt)
      | None => (set_entry_var s self, Raise TypeError)
      end
    else (set_entry_var s self, Ok tt).
Proof.
  destruct self as [ce dt et dc ec ond one mx ev tr wh en bt].
  cbv -[prefix Z.geb String.length Z.of_nat].
  destruct tr; [|reflexivity]. destruct mx as [m|]; [|reflexivity].
  destruct (_ >=? _); reflexivity.
Qed.

Lemma limiter_init (cfg : config callback) (self : widget callback) :
  __init__ theme winfo cfg = Ok self ->
  limiter_is (cfg_max_characters cfg) self /\ entry_var self = "".
Proof.
  unfold __init__.
  destruct (hover_of (cfg_edit_disabled_color cfg)); cbn; [|discriminate].
  intros [= <-]. repeat split.
Qed.

Lemma limiter_step (m : option Z) (e : event) (self : widget callback) :
  keeps run_callback limiter_fields ->
  limiter_is m self -> limiter_is m (after_event e self).
Proof.
  intros K [Hm Ht]. unfold limiter_is. destruct e as [|s]; cbn [step].
  - pose proof (toggle_limiter_fields self K) as E. unfold limiter_fields in E.
    injection E as _ -> ->. now split.
  - destruct (write_keeps_limit callback s self) as [-> ->].
    now split.
Qed.

Lemma limiter_run (m : option Z) (es : list event) (self : widget callback) :
  keeps run_callback limiter_fields ->
  limiter_is m self -> limiter_is m (after_run es self).
Proof.
  intros K. revert self. induction es as [|e es IH]; intros self H; [exact H|].
  cbn. apply IH. now apply limiter_step.
Qed.

Lemma limiter_reachable (cfg : config callback) (self : widget callback) :
  keeps run_callback limiter_fields ->
  reachable theme winfo run_callback cfg self ->
  limiter_is (cfg_max_characters cfg) self.
Proof.
  intros K R. induction R as [self H|self e R IH].
  - now apply limiter_init.
  - now apply limiter_step.
Qed.

(** X10: the edit flag after a run is the parity of its toggles, whatever
    the writes in between and whether or not a toggle raised, when the
    callbacks leave the flag alone. *)
Theorem edit_flag_is_toggle_parity (es : list event) (self : widget callback) :
  keeps run_callback can_edit ->
  can_edit (after_run es self) = xorb (can_edit self) (Nat.odd (toggles es)).
Proof.
  intros K. revert self. induction es as [|e es IH]; intros self.
  - cbn. now rewrite xorb_false_r.
  - change (after_run (e :: es) self) with (after_run es (after_event e self)).
    rewrite IH. destruct e as [|s]; cbn [step toggles].
    + rewrite (toggle_flips self K), Nat.odd_succ, <- Nat.negb_odd.
      destruct (can_edit self), (Nat.odd (toggles es)); reflexivity.
    + pose proof (write_fields callback s self) as E.
      unfold machine_fields, toggle_fields in E. now injection E as -> _ _ _ _ _ _.
Qed.

(** X11: the limit holds over any run of toggles and writes, for a
    maximum of 0 or more, when the callbacks leave the text and the
    limiter alone. *)
Theorem text_limit_over_any_run (cfg : config callback) (m : Z)
    (self : widget callback) (es : list event) :
  keeps run_callback limiter_fields ->
  cfg_max_characters cfg = Some m -> 0 <= m ->
  __init__ theme winfo cfg = Ok self ->
  Z.of_nat (String.length (entry_var (after_run es self))) <= m.
Proof.
  intros K Hm Hpos Hinit.
  destruct (limiter_init cfg self Hinit) as [Hl H0]. rewrite Hm in Hl.
  assert (Hlen : Z.of_nat (String.length (entry_var self)) <= m) by (rewrite H0; cbn; lia).
  clear Hinit H0. revert self Hl Hlen.
  induction es as [|e es IH]; intros self Hl Hlen; [exact Hlen|].
  change (after_run (e :: es) self) with (after_run es (after_event e self)).
  apply IH; [now apply limiter_step|].
  destruct e as [|s]; cbn [step].
  - pose proof (toggle_limiter_fields self K) as E. unfold limiter_fields in E.
    now injection E as -> _ _.
  - destruct Hl as [Hmx Ht]. rewrite write_outcome, Ht, Hmx. cbn [fst entry_var set_entry_var].
    destruct (_ >=? _) eqn:E; [|lia].
    unfold prefix. replace (0 <=? m) with true by lia.
    pose proof (substring_length_le (Z.to_nat m) s). lia.
Qed.

(** X12: without a maximum nothing is cut: after any run, a write stores
    the text as it is, of any length. *)
Theorem no_maximum_no_cut (cfg : config callback) (self : widget callback)
    (es : list event) (s : string) :
  keeps run_callback limiter_fields ->
  cfg_max_characters cfg = None ->
  __init__ theme winfo cfg = Ok self ->
  write s (after_run es self) = (set_entry_var s (after_run es self), Ok tt).
Proof.
  intros K Hm Hinit.
  destruct (limiter_init cfg self Hinit) as [Hl _]. rewrite Hm in Hl.
  destruct (limiter_run None es self K Hl) as [_ Ht].
  now rewrite write_outcome, Ht.
Qed.

(** X13: with a maximum of 0 the text is empty after every run. *)
Theorem zero_maximum_keeps_empty (cfg : config callback) (self : widget callback)
    (es : list event) :
  keeps run_callback limiter_fields ->
  cfg_max_characters cfg = Some 0 ->
  __init__ theme winfo cfg = Ok self ->
  entry_var (after_run es self) = "".
Proof.
  intros K Hm Hinit.
  destruct (limiter_init cfg self Hinit) as [Hl H0]. rewrite Hm in Hl.
  clear Hinit. revert self Hl H0.
  induction es as [|e es IH]; intros self Hl H0; [exact H0|].
  change (after_run (e :: es) self) with (after_run es (after_event e self)).
  apply IH; [now apply limiter_step|].
  destruct e as [|s]; cbn [step].
  - pose proof (toggle_limiter_fields self K) as E. unfold limiter_fields in E.
    injection E as -> _ _. exact H0.
  - destruct Hl as [Hmx Ht]. rewrite write_outcome, Ht, Hmx. cbn [fst entry_var set_entry_var].
    destruct (_ >=? 0) eqn:E; [|rewrite Z.geb_leb in E; apply Z.leb_gt in E; lia]. unfold prefix. cbn. now destruct s.
Qed.

(** X14: with a negative maximum every write loses its last characters,
    as many as the maximum counts below 0. *)
Theorem negative_maximum_cuts_the_end (cfg : config callback) (m : Z)
    (self : widget callback) (es : list event) (s : string) :
  keeps run_callback limiter_fields ->
  cfg_max_characters cfg = Some m -> m < 0 ->
  __init__ theme winfo cfg = Ok self ->
  entry_var (after_event (Write s) (after_run es self))
    = substring 0 (String.length s - Z.to_nat (- m)) s.
Proof.
  intros K Hm Hneg Hinit.
  destruct (limiter_init cfg self Hinit) as [Hl _]. rewrite Hm in Hl.
  destruct (limiter_run (Some m) es self K Hl) as [Hmx Ht].
  cbn [step]. rewrite write_outcome, Ht, Hmx. cbn [fst entry_var set_entry_var].
  destruct (_ >=? m) eqn:E; [|rewrite Z.geb_leb in E; apply Z.leb_gt in E; lia]. unfold prefix.
  replace (0 <=? m) with false by lia. f_equal. lia.
Qed.

(** X15: a text shorter than the maximum is stored as it is. *)
Theorem short_text_is_kept (cfg : config callback) (m : Z)
    (self : widget callback) (es : list event) (s : string) :
  keeps run_callback limiter_fields ->
  cfg_max_characters cfg = Some m ->
  Z.of_nat (String.length s) <= m ->
  __init__ theme winfo cfg = Ok self ->
  entry_var (after_event (Write s) (after_run es self)) = s.
Proof.
  intros K Hm Hlen Hinit.
  destruct (limiter_init cfg self Hinit) as [Hl _]. rewrite Hm in Hl.
  destruct (limiter_run (Some m) es self K Hl) as [Hmx Ht].
  cbn [step]. rewrite write_outcome, Ht, Hmx. cbn [fst entry_var set_entry_var].
  destruct (_ >=? m); [now apply prefix_short|reflexivity].
Qed.

(** X16: in a reachable state a write never raises, and it changes the
    text and nothing else of the widget. *)
Theorem write_changes_the_text_only (cfg : config callback) (self : widget callback)
    (s : string) :
  keeps run_callback limiter_fields ->
  reachable theme winfo run_callback cfg self ->
  snd (write s self) = Ok tt /\
  exists t, fst (write s self) = set_entry_var t self.
Proof.
  intros K R. destruct (limiter_reachable cfg self K R) as [Hmx Ht].
  rewrite write_outcome, Ht, Hmx.
  destruct (cfg_max_characters cfg) as [m|]; cbn [fst snd]; eauto.
Qed.

(** X17: in a reachable state, leaving edit mode does not fail in the
    color utility: without a callback the toggle returns, with the widget
    read-only under the disabled look. *)
Theorem leaving_edit_mode_returns (cfg : config callback) (self : widget callback) :
  keeps run_callback toggle_fields ->
  reachable theme winfo run_callback cfg self ->
  can_edit self = true ->
  on_disable_edit_command self = None ->
  exists hd,
    hover_of (cfg_edit_disabled_color cfg) = Ok hd /\
    toggle self = (disabled_state hd self, Ok tt).
Proof.
  intros K R Hce Hcb.
  pose proof (button_inv_reachable theme winfo callback run_callback cfg self K R)
    as (_ & _ & Hdc & _ & hd & Hhd & _).
  exists hd. split; [exact Hhd|].
  rewrite (toggle_from_enabled theme winfo callback run_callback self Hce), Hdc, Hhd, Hcb.
  reflexivity.
Qed.

(** X18: in a reachable state, when the hover color of the enabled color
    cannot be computed, entering edit mode raises the utility's exception
    after it has set the flag and made the text box writable: the button
    keeps its look, the text is as before and no callback runs. *)
Theorem failed_toggle_is_half_done (cfg : config callback) (self : widget callback)
    (e : exn) :
  keeps run_callback toggle_fields ->
  reachable theme winfo run_callback cfg self ->
  can_edit self = false ->
  hover_of (cfg_edit_enabled_color cfg) = Raise e ->
  toggle self = (half_enabled_state self, Raise e) /\
  can_edit (fst (toggle self)) = true /\
  state (Entry (fst (toggle self))) = normal /\
  EditButton (fst (toggle self)) = EditButton self /\
  entry_var (fst (toggle self)) = entry_var self.
Proof.
  intros K R Hce He.
  pose proof (button_inv_reachable theme winfo callback run_callback cfg self K R)
    as (_ & _ & _ & Hec & _).
  rewrite (toggle_from_disabled theme winfo callback run_callback self Hce), Hec, He.
  repeat split.
Qed.

(** X19: for a maximum of 0 or more the limiter is idempotent: run again
    on what it has left, it changes nothing. *)
Theorem limiter_is_idempotent (m : Z) (self : widget callback) :
  max_characters self = Some m -> 0 <= m ->
  fst (_limit_characters (fst (_limit_characters self))) = fst (_limit_characters self).
Proof.
  intros Hm Hpos.
  destruct self as [ce dt et dc ec ond one mx ev tr wh en bt]. cbn in Hm. subst mx.
  cbv -[prefix Z.geb String.length Z.of_nat].
  destruct (Z.of_nat (String.length ev) >=? m) eqn:E1;
    cbv -[prefix Z.geb String.length Z.of_nat].
  - destruct (Z.of_nat (String.length (prefix m ev)) >=? m) eqn:E2; [|reflexivity].
    f_equal. unfold prefix. replace (0 <=? m) with true by lia.
    assert (G : forall n t, substring 0 n (substring 0 n t) = substring 0 n t).
    { intros n. induction n as [|n IH]; intros [|c t]; cbn; try reflexivity.
      now rewrite IH. }
    apply G.
  - now rewrite E1.
Qed.

End MoreWidgetFacts.

(** ** The further properties on the concrete toolkit *)

Lemma tk_rgb_has_16_bits : rgb16 tk_rgb.
Proof.
  intros name vr vg vb. unfold tk_rgb.
  destruct (String.eqb name "red"); [intros [= <- <- <-]; lia|].
  destruct (String.eqb name "green"); [intros [= <- <- <-]; lia|].
  discriminate.
Qed.

Lemma idle_keeps {A} (f : widget unit -> A) : keeps idle f.
Proof. intros c self. reflexivity. Qed.

Lemma named_color_hover_witness :
  theme_lookup stock_theme "red" = None /\
  startswith_hash "red" = false /\
  tk_rgb "red" = Some (65535, 0, 0) /\
  0 <= 65535 <= 65535 /\ 0 <= 0 <= 65535 /\
  _get_hover_color stock_theme tk_rgb "red" demo_widget = (demo_widget, Ok "#d80000").
Proof.
  do 3 (split; [reflexivity|]). do 2 (split; [lia|]).
  apply (named_color_hover stock_theme tk_rgb unit "red" 65535 0 0 demo_widget);
    reflexivity || lia.
Defined.

Lemma hex_case_does_not_matter_witness :
  theme_lookup stock_theme "#AbCdEf" = None /\
  theme_lookup stock_theme (lower_string "#AbCdEf") = None /\
  Spec.is_hex_color "#AbCdEf" = true /\
  _get_hover_color stock_theme tk_rgb "#abcdef" demo_widget
    = _get_hover_color stock_theme tk_rgb "#AbCdEf" demo_widget.
Proof.
  do 3 (split; [reflexivity|]).
  apply (hex_case_does_not_matter stock_theme tk_rgb unit "#AbCdEf" demo_widget);
    reflexivity.
Defined.

Lemma hash_code_outcome_witness :
  theme_lookup stock_theme "#+f 8a0" = None /\
  startswith_hash "#+f 8a0" = true /\
  returns (snd (_get_hover_color stock_theme tk_rgb "#+f 8a0" demo_widget)) = true /\
  (accepted_code "#+f 8a0" = false ->
   is_ValueError (snd (_get_hover_color stock_theme tk_rgb "#+f 8a0" demo_widget)) = true).
Proof.
  do 2 (split; [reflexivity|]).
  apply (hash_code_outcome stock_theme tk_rgb unit "#+f 8a0" demo_widget); reflexivity.
Defined.

Lemma only_ValueError_witness :
  rgb16 tk_rgb /\
  ok_or_ValueError (snd (_get_hover_color stock_theme tk_rgb "notacolor" demo_widget))
    = true.
Proof.
  split; [exact tk_rgb_has_16_bits|].
  apply (only_ValueError stock_theme tk_rgb unit "notacolor" demo_widget).
  exact tk_rgb_has_16_bits.
Defined.

Lemma toolkit_is_not_asked_witness :
  (is_Some (theme_lookup stock_theme "#808080") \/ startswith_hash "#808080" = true) /\
  _get_hover_color stock_theme tk_rgb "#808080" demo_widget
    = _get_hover_color stock_theme (fun _ => None) "#808080" demo_widget.
Proof.
  split; [right; reflexivity|].
  apply (toolkit_is_not_asked stock_theme tk_rgb unit (fun _ => None) "#808080"
           demo_widget).
  right; reflexivity.
Defined.

Lemma unusable_theme_entry_is_passed_over_witness :
  theme_entry shadow_theme "red" = Some (PyStr "crimson") /\
  usable_theme_value (PyStr "crimson") = false /\
  _get_hover_color shadow_theme tk_rgb "red" demo_widget
    = _get_hover_color None tk_rgb "red" demo_widget.
Proof.
  split; [vm_compute; reflexivity|]. split; [reflexivity|].
  apply (unusable_theme_entry_is_passed_over shadow_theme tk_rgb unit "red" demo_widget).
  intros v H. vm_compute in H. injection H as <-. reflexivity.
Defined.

Lemma theme_list_uses_first_witness :
  theme_entry table_theme "primary"
    = Some (PyList [PyStr "#3B8ED0"; PyStr "#1F6AA5"]) /\
  Spec.is_hex_color "#3B8ED0" = true /\
  _get_hover_color table_theme tk_rgb "primary" demo_widget
    = (demo_widget, Ok "#3278b0").
Proof.
  split; [vm_compute; reflexivity|]. split; [reflexivity|].
  apply (theme_list_uses_first table_theme tk_rgb unit "primary" "#3B8ED0"
           [PyStr "#1F6AA5"] demo_widget).
  - vm_compute; reflexivity.
  - reflexivity.
Defined.

Lemma hover_is_strictly_darker_witness :
  rgb16 tk_rgb /\
  snd (_get_hover_color stock_theme tk_rgb "red" demo_widget) = Ok "#d80000" /\
  exists r g b,
    resolve_rgb tk_rgb (color_code_of stock_theme "red") = Ok (r, g, b) /\
    "#d80000" = Spec.encode (Spec.darken r) (Spec.darken g) (Spec.darken b) /\
    ((0 < r -> Spec.darken r < r) /\ (r <= 0 -> Spec.darken r = 0)) /\
    ((0 < g -> Spec.darken g < g) /\ (g <= 0 -> Spec.darken g = 0)) /\
    ((0 < b -> Spec.darken b < b) /\ (b <= 0 -> Spec.darken b = 0)).
Proof.
  split; [exact tk_rgb_has_16_bits|]. split; [vm_compute; reflexivity|].
  apply (hover_is_strictly_darker stock_theme tk_rgb unit "red" "#d80000" demo_widget
           tk_rgb_has_16_bits).
  vm_compute; reflexivity.
Defined.

Lemma hover_of_hover_returns_witness :
  rgb16 tk_rgb /\
  snd (_get_hover_color stock_theme tk_rgb "red" demo_widget) = Ok "#d80000" /\
  theme_lookup stock_theme "#d80000" = None /\
  Spec.is_hex_color "#d80000" = true /\
  _get_hover_color stock_theme tk_rgb "#d80000" demo_widget = (demo_widget, Ok "#b70000").
Proof.
  split; [exact tk_rgb_has_16_bits|]. split; [vm_compute; reflexivity|].
  split; [reflexivity|].
  apply (hover_of_hover_returns stock_theme tk_rgb unit "red" "#d80000" demo_widget
           tk_rgb_has_16_bits).
  - vm_compute; reflexivity.
  - reflexivity.
Defined.

Lemma edit_flag_is_toggle_parity_witness :
  keeps idle can_edit /\
  can_edit (run stock_theme tk_rgb idle [Toggle; Write "x"; Toggle; Toggle] demo_widget)
    = xorb (can_edit demo_widget) (Nat.odd 3).
Proof.
  split; [exact (idle_keeps can_edit)|].
  apply (edit_flag_is_toggle_parity stock_theme tk_rgb unit idle
           [Toggle; Write "x"; Toggle; Toggle] demo_widget).
  exact (idle_keeps can_edit).
Defined.

Lemma text_limit_over_any_run_witness :
  keeps idle limiter_fields /\
  cfg_max_characters demo_config = Some 8 /\
  0 <= 8 /\
  __init__ stock_theme tk_rgb demo_config = Ok demo_widget /\
  Z.of_nat (String.length (entry_var
     (run stock_theme tk_rgb idle [Write "hello, world"; Toggle; Write "abc"]
        demo_widget))) <= 8.
Proof.
  split; [exact (idle_keeps limiter_fields)|]. split; [reflexivity|]. split; [lia|].
  split; [vm_compute; reflexivity|].
  apply (text_limit_over_any_run stock_theme tk_rgb unit idle demo_config 8 demo_widget
           [Write "hello, world"; Toggle; Write "abc"]).
  - exact (idle_keeps limiter_fields).
  - reflexivity.
  - lia.
  - vm_compute; reflexivity.
Defined.

Lemma no_maximum_no_cut_witness :
  keeps idle limiter_fields /\
  cfg_max_characters (limited None) = None /\
  __init__ stock_theme tk_rgb (limited None) = Ok (built (limited None)) /\
  write "a text of any length" (run stock_theme tk_rgb idle [Toggle] (built (limited None)))
    = (set_entry_var "a text of any length"
         (run stock_theme tk_rgb idle [Toggle] (built (limited None))), Ok tt).
Proof.
  split; [exact (idle_keeps limiter_fields)|]. split; [reflexivity|].
  split; [vm_compute; reflexivity|].
  apply (no_maximum_no_cut stock_theme tk_rgb unit idle (limited None)
           (built (limited None)) [Toggle] "a text of any length").
  - exact (idle_keeps limiter_fields).
  - reflexivity.
  - vm_compute; reflexivity.
Defined.

Lemma zero_maximum_keeps_empty_witness :
  keeps idle limiter_fields /\
  cfg_max_characters (limited (Some 0)) = Some 0 /\
  __init__ stock_theme tk_rgb (limited (Some 0)) = Ok (built (limited (Some 0))) /\
  entry_var (run stock_theme tk_rgb idle [Write "abc"; Toggle] (built (limited (Some 0))))
    = "".
Proof.
  split; [exact (idle_keeps limiter_fields)|]. split; [reflexivity|].
  split; [vm_compute; reflexivity|].
  apply (zero_maximum_keeps_empty stock_theme tk_rgb unit idle (limited (Some 0))
           (built (limited (Some 0))) [Write "abc"; Toggle]).
  - exact (idle_keeps limiter_fields).
  - reflexivity.
  - vm_compute; reflexivity.
Defined.

Lemma negative_maximum_cuts_the_end_witness :
  keeps idle limiter_fields /\
  cfg_max_characters (limited (Some (-2))) = Some (-2) /\
  -2 < 0 /\
  __init__ stock_theme tk_rgb (limited (Some (-2))) = Ok (built (limited (Some (-2)))) /\
  entry_var (step stock_theme tk_rgb idle (Write "hello")
               (run stock_theme tk_rgb idle [] (built (limited (Some (-2))))))
    = "hel".
Proof.
  split; [exact (idle_keeps limiter_fields)|]. split; [reflexivity|]. split; [lia|].
  split; [vm_compute; reflexivity|].
  apply (negative_maximum_cuts_the_end stock_theme tk_rgb unit idle (limited (Some (-2)))
           (-2) (built (limited (Some (-2)))) [] "hello").
  - exact (idle_keeps limiter_fields).
  - reflexivity.
  - lia.
  - vm_compute; reflexivity.
Defined.

Lemma short_text_is_kept_witness :
  keeps idle limiter_fields /\
  cfg_max_characters demo_config = Some 8 /\
  Z.of_nat (String.length "abc") <= 8 /\
  __init__ stock_theme tk_rgb demo_config = Ok demo_widget /\
  entry_var (step stock_theme tk_rgb idle (Write "abc")
               (run stock_theme tk_rgb idle [Write "hello, world"] demo_widget))
    = "abc".
Proof.
  split; [exact (idle_keeps limiter_fields)|]. split; [reflexivity|].
  split; [cbn; lia|]. split; [vm_compute; reflexivity|].
  apply (short_text_is_kept stock_theme tk_rgb unit idle demo_config 8 demo_widget
           [Write "hello, world"] "abc").
  - exact (idle_keeps limiter_fields).
  - reflexivity.
  - cbn; lia.
  - vm_compute; reflexivity.
Defined.

Lemma write_changes_the_text_only_witness :
  keeps idle limiter_fields /\
  reachable stock_theme tk_rgb idle demo_config demo_widget /\
  snd (write "hello, world" demo_widget) = Ok tt /\
  exists t, fst (write "hello, world" demo_widget) = set_entry_var t demo_widget.
Proof.
  split; [exact (idle_keeps limiter_fields)|].
  split; [apply reachable_init; vm_compute; reflexivity|].
  apply (write_changes_the_text_only stock_theme tk_rgb unit idle demo_config demo_widget
           "hello, world").
  - exact (idle_keeps limiter_fields).
  - apply reachable_init; vm_compute; reflexivity.
Defined.

Lemma leaving_edit_mode_returns_witness :
  keeps idle toggle_fields /\
  reachable stock_theme tk_rgb idle demo_config
    (step stock_theme tk_rgb idle Toggle demo_widget) /\
  can_edit (step stock_theme tk_rgb idle Toggle demo_widget) = true /\
  on_disable_edit_command (step stock_theme tk_rgb idle Toggle demo_widget) = None /\
  exists hd,
    get_hover_color stock_theme tk_rgb (cfg_edit_disabled_color demo_config) = Ok hd /\
    toggle_edit_mode stock_theme tk_rgb idle (step stock_theme tk_rgb idle Toggle demo_widget)
      = (disabled_state hd (step stock_theme tk_rgb idle Toggle demo_widget), Ok tt).
Proof.
  split; [exact (idle_keeps toggle_fields)|].
  split; [apply reachable_step, reachable_init; vm_compute; reflexivity|].
  split; [vm_compute; reflexivity|]. split; [vm_compute; reflexivity|].
  apply (leaving_edit_mode_returns stock_theme tk_rgb unit idle demo_config
           (step stock_theme tk_rgb idle Toggle demo_widget)).
  - exact (idle_keeps toggle_fields).
  - apply reachable_step, reachable_init; vm_compute; reflexivity.
  - vm_compute; reflexivity.
  - vm_compute; reflexivity.
Defined.

Lemma failed_toggle_is_half_done_witness :
  keeps idle toggle_fields /\
  reachable stock_theme tk_rgb idle short_code_config (built short_code_config) /\
  can_edit (built short_code_config) = false /\
  get_hover_color stock_theme tk_rgb (cfg_edit_enabled_color short_code_config)
    = Raise (ValueError "Color code must be in format '#RRGGBB'.") /\
  toggle_edit_mode stock_theme tk_rgb idle (built short_code_config)
    = (half_enabled_state (built short_code_config),
       Raise (ValueError "Color code must be in format '#RRGGBB'.")) /\
  can_edit (fst (toggle_edit_mode stock_theme tk_rgb idle (built short_code_config)))
    = true /\
  state (Entry (fst (toggle_edit_mode stock_theme tk_rgb idle (built short_code_config))))
    = normal /\
  EditButton (fst (toggle_edit_mode stock_theme tk_rgb idle (built short_code_config)))
    = EditButton (built short_code_config) /\
  entry_var (fst (toggle_edit_mode stock_theme tk_rgb idle (built short_code_config)))
    = entry_var (built short_code_config).
Proof.
  split; [exact (idle_keeps toggle_fields)|].
  split; [apply reachable_init; vm_compute; reflexivity|].
  split; [vm_compute; reflexivity|]. split; [vm_compute; reflexivity|].
  apply (failed_toggle_is_half_done stock_theme tk_rgb unit idle short_code_config
           (built short_code_config)
           (ValueError "Color code must be in format '#RRGGBB'.")).
  - exact (idle_keeps toggle_fields).
  - apply reachable_init; vm_compute; reflexivity.
  - vm_compute; reflexivity.
  - vm_compute; reflexivity.
Defined.

Lemma limiter_is_idempotent_witness :
  max_characters (set_entry_var "hello, world" demo_widget) = Some 8 /\
  0 <= 8 /\
  fst (_limit_characters (fst (_limit_characters (set_entry_var "hello, world" demo_widget))))
    = fst (_limit_characters (set_entry_var "hello, world" demo_widget)).
Proof.
  split; [reflexivity|]. split; [lia|].
  apply (limiter_is_idempotent unit 8 (set_entry_var "hello, world" demo_widget));
    [reflexivity | lia].
Defined.
